(** * lepakmasjid: the data-access wrappers and the audit_logs permission script

    A shallow embedding of
      - [submissionsApi] (list, listMySubmissions, get, update, approve, reject),
      - [usersApi] (get, update, updateProfile, updatePassword, ban, unban),
      - the script [fix-audit-logs-permissions.js].

    The wrappers are sequences of awaited calls to an external service.  Each
    awaited call is logged, in program order, in the client's list of issued
    requests; what the service answers is given by a [Backend], a family of
    functions of the requests issued so far.  A JavaScript exception is the
    [Throw] outcome, [try]/[catch] is [try_catch].  [submissionsApi.create]
    is embedded on its own, with the bodies it sends returned beside its
    outcome.  Console output is not modelled; [usersApi.list] and
    [usersApi.requestPasswordReset] are not embedded. *)

From stdpp Require Import base strings list gmap.
From stdpp Require Import pretty.
From Stdlib Require Import ZArith.

Local Open Scope string_scope.
Local Open Scope list_scope.

(** ** JavaScript values and objects *)

(** A JSON-like value.  Numbers are only ever copied by this code, so a
    number is carried as its literal. *)
#[local] Unset Elimination Schemes.
Inductive value : Type :=
| VUndefined
| VNull
| VBool (b : bool)
| VNum (literal : string)
| VStr (s : string)
| VArr (items : list value)
| VObj (fields : list (string * value)).
#[local] Set Elimination Schemes.

(** [Record<string, any>] *)
Abbreviation Obj := (gmap string value).

(** [v !== undefined] *)
Definition defined (v : value) : bool :=
  match v with VUndefined => false | _ => true end.

(** Truthiness of an optional string: [undefined] and the empty string are
    falsy. *)
Definition truthy (s : option string) : bool :=
  match s with
  | None => false
  | Some s => negb (String.eqb s "")
  end.

(** [a || b] on optional strings. *)
Definition js_or (a b : option string) : option string :=
  if truthy a then a else b.

(** The double-quote character, written by its code. *)
Definition dq : string := String (Ascii.ascii_of_nat 34) EmptyString.

(** ** Records of the service *)

Record AuthModel : Type := mkAuthModel {
  model_id : string;
  model_email : string
}.

Record User : Type := mkUser {
  user_id : string;
  user_name : string;
  user_email : string;
  user_verified : bool
}.

(** A submission as [approve] reads it: [image] is the submission's file
    field, read through [submission as any]. *)
Record Submission : Type := mkSubmission {
  sub_id : string;
  sub_type : string;
  sub_data : Obj;
  sub_mosque_id : option string;
  sub_image : option string;
  sub_status : string;
  sub_submitted_by : string
}.

Record File : Type := mkFile {
  file_name : string;
  file_type : string;
  file_size : Z
}.

(** A collection of the service, with its five access rules. *)
Record Collection : Type := mkCollection {
  coll_id : string;
  listRule : option string;
  viewRule : option string;
  createRule : option string;
  updateRule : option string;
  deleteRule : option string
}.

(** ** Requests *)

(** Every awaited call that leaves the module. *)
Inductive Request : Type :=
| GetList (collection : string) (page perPage : Z) (filter : option string) (sort : string)
| GetOne (collection id : string)
| Update (collection id : string) (body : Obj)
| AuthWithPassword (collection email password : string)
| GetImageFileFromRecord (record : Submission) (filename collection : string)
| MosquesCreate (data : Obj) (image : option File)
| MosquesUpdate (id : string) (data : Obj) (image : option File)
| AdminsAuthWithPassword (email password : string)
| CollectionsGetOne (name : string)
| CollectionsUpdate (id : string) (body : Obj).

Inductive Outcome (A : Type) : Type :=
| Ok (a : A)
| Throw (message : string).
Arguments Ok {A} a.
Arguments Throw {A} message.

(** What the outside answers to a request, given the requests issued before
    it.  [clock] is [new Date().toISOString()].  [users_saved] is what the
    SDK leaves in [pb.authStore] after a successful update of a [users]
    record, from what the store held before: the SDK saves the returned record
    there when it is the record of the session. *)
Record Backend : Type := mkBackend {
  submissions_getList : list Request -> Request -> Outcome (list Submission);
  submissions_getOne : list Request -> Request -> Outcome Submission;
  submissions_update : list Request -> Request -> Outcome Submission;
  users_getOne : list Request -> Request -> Outcome User;
  users_update : list Request -> Request -> Outcome User;
  users_authWithPassword : list Request -> Request -> Outcome AuthModel;
  images_getFile : list Request -> Request -> Outcome (option File);
  mosques_write : list Request -> Request -> Outcome unit;
  admins_authWithPassword : list Request -> Request -> Outcome unit;
  collections_getOne : list Request -> Request -> Outcome Collection;
  collections_update : list Request -> Request -> Outcome unit;
  clock : list Request -> string;
  users_saved :
    list Request -> Request -> option AuthModel -> option AuthModel
}.

(** The validators imported from [../validation] and
    [../pocketbase-images]; their source is not part of these files, so the
    wrappers are parameterised by them.  [validateImageFile] returns an
    error message, or nothing for a valid file. *)
Record Validation : Type := mkValidation {
  validateSubmissionStatus : string -> bool;
  validateRecordId : string -> bool;
  validateImageFile : File -> option string
}.

(** ** The client: issued requests and the auth store *)

Record Client : Type := mkClient {
  issued : list Request;
  authStore_model : option AuthModel
}.

Definition M (A : Type) : Type := Client -> Outcome A * Client.

Definition ret {A} (a : A) : M A := fun c => (Ok a, c).

Definition throw {A} (message : string) : M A := fun c => (Throw message, c).

Definition bind {A B} (m : M A) (k : A -> M B) : M B :=
  fun c =>
    match m c with
    | (Ok a, c') => k a c'
    | (Throw e, c') => (Throw e, c')
    end.

(** [try { body } catch (error) { handler }]: what [body] did before it
    threw stays done. *)
Definition try_catch {A} (body : M A) (handler : string -> M A) : M A :=
  fun c =>
    match body c with
    | (Ok a, c') => (Ok a, c')
    | (Throw e, c') => handler e c'
    end.

Notation "'do' x <- m ; k" := (bind m (fun x => k))
  (at level 10, x name, m at level 100, k at level 200).
Notation "'run' m ; k" := (bind m (fun _ => k))
  (at level 10, m at level 100, k at level 200).

(** Issue a request: log it and take the backend's answer. *)
Definition await {A} (answer : list Request -> Request -> Outcome A)
    (rq : Request) : M A :=
  fun c => (answer (issued c) rq, mkClient (issued c ++ [rq]) (authStore_model c)).

Definition get_authStore_model : M (option AuthModel) :=
  fun c => (Ok (authStore_model c), c).

(** A successful [authWithPassword] stores the authenticated record. *)
Definition save_authStore (m : AuthModel) : M unit :=
  fun c => (Ok tt, mkClient (issued c) (Some m)).

Definition now (B : Backend) : M string :=
  fun c => (Ok (clock B (issued c)), c).

(** ** submissionsApi *)

Module submissionsApi.
Section Api.
Variable B : Backend.
Variable V : Validation.

(** [status = "${status}"] *)
Definition status_clause (status : string) : string :=
  "status = " +:+ dq +:+ status +:+ dq.

(** [submitted_by = "${pb.authStore.model.id}"] *)
Definition submitted_by_clause (id : string) : string :=
  "submitted_by = " +:+ dq +:+ id +:+ dq.

Definition list (status : option string) : M (list Submission) :=
  do filter <- match status with
             | Some status =>
                 if truthy (Some status) then
                   if negb (validateSubmissionStatus V status)
                   then throw "Invalid status parameter"
                   else ret (status_clause status)
                 else ret ""
             | None => ret ""
             end ;
  await (submissions_getList B)
    (GetList "submissions" 1 100 (Some filter) "-submitted_at").

Definition listMySubmissions (status : option string)
    : M (Datatypes.list Submission) :=
  do model <- get_authStore_model ;
  match model with
  | None => throw "User not authenticated"
  | Some model =>
      let filter := submitted_by_clause (model_id model) in
      do filter <- match status with
                 | Some status =>
                     if truthy (Some status) then
                       if negb (validateSubmissionStatus V status)
                       then throw "Invalid status parameter"
                       else ret (filter +:+ " && " +:+ status_clause status)
                     else ret filter
                 | None => ret filter
                 end ;
      await (submissions_getList B)
        (GetList "submissions" 1 100 (Some filter) "-submitted_at")
  end.

Definition get (id : string) : M Submission :=
  if negb (validateRecordId V id)
  then throw "Invalid submission ID format"
  else await (submissions_getOne B) (GetOne "submissions" id).

Definition update (id : string) (data : Obj) : M Submission :=
  await (submissions_update B) (Update "submissions" id data).

(** The allow-list of [approve]. *)
Definition ALLOWED_MOSQUE_FIELDS : Datatypes.list string :=
  ["name"; "name_bm"; "address"; "state"; "lat"; "lng";
   "description"; "description_bm"; "status"].

(** One turn of the copying loop:
    [if (field in data && data[field] !== undefined) sanitizedData[field] = data[field]]. *)
Definition copy_field (data sanitizedData : Obj) (field : string) : Obj :=
  match data !! field with
  | Some v => if defined v then <[field := v]> sanitizedData else sanitizedData
  | None => sanitizedData
  end.

Definition sanitize (data : Obj) : Obj :=
  foldl (copy_field data) ∅ ALLOWED_MOSQUE_FIELDS.

(** [sanitizedData] as it stands after the [new_mosque] assignments. *)
Definition sanitizedData (submission : Submission) : Obj :=
  let sanitized := sanitize (sub_data submission) in
  if String.eqb (sub_type submission) "new_mosque" then
    <["created_by" := VStr (sub_submitted_by submission)]>
      (<["status" := VStr "approved"]> sanitized)
  else sanitized.

(** The image step: [imageFile] is set only when the fetch returned a file
    and [validateImageFile] returned no error; a throw inside the [try]
    is caught and leaves [imageFile] undefined. *)
Definition fetch_image (submission : Submission) : M (option File) :=
  match sub_image submission with
  | Some image =>
      if truthy (Some image) then
        try_catch
          (do fetchedImageFile <-
             await (images_getFile B)
               (GetImageFileFromRecord submission image "submissions") ;
           match fetchedImageFile with
           | Some file =>
               if truthy (validateImageFile V file) then ret None
               else ret (Some file)
           | None => ret None
           end)
          (fun _ => ret None)
      else ret None
  | None => ret None
  end.

(** The create-or-update step. *)
Definition write_mosque (submission : Submission) (data : Obj)
    (imageFile : option File) : M unit :=
  if String.eqb (sub_type submission) "new_mosque" then
    await (mosques_write B) (MosquesCreate data imageFile)
  else
    match sub_mosque_id submission with
    | Some mosque_id =>
        if String.eqb (sub_type submission) "edit_mosque"
           && truthy (Some mosque_id) then
          if negb (validateRecordId V mosque_id)
          then throw "Invalid mosque ID format"
          else await (mosques_write B) (MosquesUpdate mosque_id data imageFile)
        else ret tt
    | None => ret tt
    end.

(** [{ status: 'approved', reviewed_by, reviewed_at }] *)
Definition approved_body (reviewedBy reviewed_at : string) : Obj :=
  <["status" := VStr "approved"]>
    (<["reviewed_by" := VStr reviewedBy]>
       (<["reviewed_at" := VStr reviewed_at]> ∅)).

Definition approve (id reviewedBy : string) : M Submission :=
  do submission <- get id ;
  let data := sanitizedData submission in
  do imageFile <- fetch_image submission ;
  run write_mosque submission data imageFile ;
  do reviewed_at <- now B ;
  update id (approved_body reviewedBy reviewed_at).

(** [{ status: 'rejected', reviewed_by, reviewed_at, rejection_reason }] *)
Definition rejected_body (reviewedBy reviewed_at reason : string) : Obj :=
  <["status" := VStr "rejected"]>
    (<["reviewed_by" := VStr reviewedBy]>
       (<["reviewed_at" := VStr reviewed_at]>
          (<["rejection_reason" := VStr reason]> ∅))).

Definition reject (id reviewedBy reason : string) : M Submission :=
  do reviewed_at <- now B ;
  update id (rejected_body reviewedBy reviewed_at reason).

End Api.
End submissionsApi.

(** ** usersApi *)

Module usersApi.
Section Api.
Variable B : Backend.

Definition get (id : string) : M User :=
  await (users_getOne B) (GetOne "users" id).

(** [await pb.collection('users').update(id, data)]: the request is logged
    and answered; after a successful answer the auth store is what the SDK
    left in it. *)
Definition await_update (id : string) (data : Obj) : M User :=
  fun c =>
    let rq := Update "users" id data in
    let answer := users_update B (issued c) rq in
    (answer,
     mkClient (issued c ++ [rq])
       match answer with
       | Ok _ => users_saved B (issued c) rq (authStore_model c)
       | Throw _ => authStore_model c
       end).

Definition update (id : string) (data : Obj) : M User :=
  await_update id data.

Definition updateProfile (data : Obj) : M User :=
  do model <- get_authStore_model ;
  match model with
  | None => throw "User not authenticated"
  | Some model => await_update (model_id model) data
  end.

(** [{ password: newPassword, passwordConfirm }] *)
Definition password_body (newPassword passwordConfirm : string) : Obj :=
  <["password" := VStr newPassword]>
    (<["passwordConfirm" := VStr passwordConfirm]> ∅).

Definition updatePassword (oldPassword newPassword passwordConfirm : string)
    : M unit :=
  do model <- get_authStore_model ;
  match model with
  | None => throw "User not authenticated"
  | Some model =>
      run try_catch
            (do authenticated <-
               await (users_authWithPassword B)
                 (AuthWithPassword "users" (model_email model) oldPassword) ;
             save_authStore authenticated)
            (fun _ => throw "Current password is incorrect") ;
      do model <- get_authStore_model ;
      match model with
      | None => throw "TypeError: pb.authStore.model is null"
      | Some model =>
          run await_update (model_id model)
                (password_body newPassword passwordConfirm) ;
          ret tt
      end
  end.

Definition ban (id : string) : M User :=
  update id (<["verified" := VBool false]> ∅).

Definition unban (id : string) : M User :=
  update id (<["verified" := VBool true]> ∅).

End Api.
End usersApi.

(** ** scripts/fix-audit-logs-permissions.js *)

Module script.

(** How the process ends: [process.exit(code)]; [main] returning without a
    call to [process.exit]; or [main] left waiting at a prompt that is never
    answered, where node ends once nothing is left to run. *)
Inductive Ending : Type :=
| Exited (code : Z)
| Returned
| Pending.

(** The exit status of the process: the argument of [process.exit], and 0
    when the process ends without that call. *)
Definition status (ending : Ending) : Z :=
  match ending with
  | Exited code => code
  | Returned => 0
  | Pending => 0
  end.

(** [{ success, error }] *)
Record FixResult : Type := mkFixResult {
  success : bool;
  error : option string
}.

(** The rule the script writes: [@request.auth.id != ""]. *)
Definition CREATE_RULE : string := "@request.auth.id != " +:+ dq +:+ dq.

Section Script.
Variable B : Backend.
(** [process.env] *)
Variable env : gmap string string.
(** What [await question(...)] yields at the [Email: ] and [Password: ]
    prompts: the line typed, or nothing when the prompt is never answered
    (the input is closed, or the line came before the question was asked). *)
Variable typed_email typed_password : option string.

Definition POCKETBASE_URL : option string :=
  js_or (env !! "VITE_POCKETBASE_URL") (env !! "POCKETBASE_URL").

(** [authenticate] yields nothing when it is left waiting at a prompt. *)
Definition authenticate : M (option bool) :=
  let adminEmail := env !! "POCKETBASE_ADMIN_EMAIL" in
  let adminPassword := env !! "POCKETBASE_ADMIN_PASSWORD" in
  do authenticated <-
    (if truthy adminEmail && truthy adminPassword then
       try_catch
         (run await (admins_authWithPassword B)
                (AdminsAuthWithPassword (default "" adminEmail)
                   (default "" adminPassword)) ;
          ret true)
         (fun _ => ret false)
     else ret false) ;
  if authenticated : bool then ret (Some true)
  else
    match typed_email with
    | None => ret None
    | Some email =>
        match typed_password with
        | None => ret None
        | Some password =>
            try_catch
              (run await (admins_authWithPassword B)
                     (AdminsAuthWithPassword email password) ;
               ret (Some true))
              (fun _ => ret (Some false))
        end
    end.

(** [{ createRule: '@request.auth.id != ""' }] *)
Definition rule_patch : Obj := {[ "createRule" := VStr CREATE_RULE ]}.

Definition fixAuditLogsPermissions : M FixResult :=
  try_catch
    (do collection <-
       await (collections_getOne B) (CollectionsGetOne "audit_logs") ;
     run await (collections_update B)
           (CollectionsUpdate (coll_id collection) rule_patch) ;
     ret (mkFixResult true None))
    (fun message => ret (mkFixResult false (Some message))).

Definition main : M Ending :=
  do authSuccess <- authenticate ;
  match authSuccess with
  | None => ret Pending
  | Some authSuccess =>
      if negb authSuccess then ret (Exited 1)
      else
        do result <- fixAuditLogsPermissions ;
        if success result then ret Returned else ret (Exited 1)
  end.

(** The whole module: the URL check at load time, then
    [main().catch(() => process.exit(1))]. *)
Definition program : M Ending :=
  if negb (truthy POCKETBASE_URL) then ret (Exited 1)
  else try_catch main (fun _ => ret (Exited 1)).

End Script.
End script.

(** ** Observing a run *)

(** The requests a computation issues when started in client state [c], in
    the order they are issued. *)
Definition requests_of {A} (m : M A) (c : Client) : list Request :=
  drop (length (issued c)) (issued (m c).2).

Definition outcome_of {A} (m : M A) (c : Client) : Outcome A := (m c).1.

(** The client after it has issued [rqs]. *)
Definition sent (c : Client) (rqs : list Request) : Client :=
  mkClient (issued c ++ rqs) (authStore_model c).

(** The request of the image step: one fetch when the submission has a
    non-empty [image], none otherwise. *)
Definition image_requests (s : Submission) : list Request :=
  match sub_image s with
  | Some name =>
      if truthy (Some name)
      then [GetImageFileFromRecord s name "submissions"] else []
  | None => []
  end.

(** What the copying loop takes from [data] under the name [k]. *)
Definition copied (data : Obj) (k : string) : option value :=
  match data !! k with
  | Some v => if defined v then Some v else None
  | None => None
  end.

(** The requests of the create-or-update step, by the submission's type. *)
Definition mosque_step (V : Validation) (s : Submission) (data : Obj)
    (img : option File) (rqs : list Request) : Prop :=
  (sub_type s = "new_mosque" /\ rqs = [MosquesCreate data img])
  \/ (sub_type s = "edit_mosque" /\
      exists mosque_id,
        sub_mosque_id s = Some mosque_id /\ mosque_id <> "" /\
        validateRecordId V mosque_id = true /\
        rqs = [MosquesUpdate mosque_id data img])
  \/ (sub_type s = "edit_mosque" /\
      exists mosque_id,
        sub_mosque_id s = Some mosque_id /\ mosque_id <> "" /\
        validateRecordId V mosque_id = false /\
        rqs = [])
  \/ (sub_type s <> "new_mosque" /\
      (sub_type s <> "edit_mosque" \/ truthy (sub_mosque_id s) = false) /\
      rqs = []).

(** The last step of [approve], from the client state [c3] it is reached in. *)
Definition finish (B : Backend) (id reviewedBy : string) (c3 : Client)
    : Outcome Submission * Client :=
  let rq := Update "submissions" id
              (submissionsApi.approved_body reviewedBy (clock B (issued c3))) in
  (submissions_update B (issued c3) rq, sent c3 [rq]).

(** The status values of the parameter type of [list] and
    [listMySubmissions]: ['pending' | 'approved' | 'rejected']. *)
Definition SUBMISSION_STATUSES : list string :=
  ["pending"; "approved"; "rejected"].

(** Modelled from the spec: [validateSubmissionStatus] of [../validation],
    whose source is missing; the spec has it reject the status values
    outside pending, approved and rejected. *)
Definition spec_validateSubmissionStatus (status : string) : bool :=
  bool_decide (status ∈ SUBMISSION_STATUSES).

(** ** Concrete validators, records and backends

    Used to run the wrappers on explicit inputs. *)

Definition lower_alnum (a : Ascii.ascii) : bool :=
  let n := Ascii.nat_of_ascii a in
  ((48 <=? n)%nat && (n <=? 57)%nat) || ((97 <=? n)%nat && (n <=? 122)%nat).

(** An instance of the absent [validateRecordId]: fifteen characters of
    [a-z0-9], the shape of the service's generated record ids. *)
Definition sample_validateRecordId (id : string) : bool :=
  (String.length id =? 15)%nat && forallb lower_alnum (String.list_ascii_of_string id).

(** An instance of the absent [validateImageFile]: a size limit. *)
Definition sample_validateImageFile (file : File) : option string :=
  if (file_size file <=? 5242880)%Z then None
  else Some "Image size must be less than 5MB".

Definition sample_validation : Validation :=
  mkValidation spec_validateSubmissionStatus sample_validateRecordId
    sample_validateImageFile.

Definition sample_user : User :=
  mkUser "u00000000000001" "Aisyah" "aisyah@example.com" true.

Definition sample_model : AuthModel :=
  mkAuthModel "u00000000000001" "aisyah@example.com".

Definition sample_collection : Collection :=
  mkCollection "c00000000000001" None None None None None.

(** A backend whose answers do not depend on the earlier requests. *)
Definition backend_of
    (getOne : Outcome Submission)
    (getFile : Outcome (option File))
    (write : Outcome unit)
    (updated : Outcome Submission)
    (user_auth : Outcome AuthModel)
    (admin_auth : Request -> Outcome unit)
    (collection : Outcome Collection)
    (collection_updated : Outcome unit) : Backend :=
  mkBackend
    (fun _ _ => Ok []) (fun _ _ => getOne) (fun _ _ => updated)
    (fun _ _ => Ok sample_user) (fun _ _ => Ok sample_user)
    (fun _ _ => user_auth) (fun _ _ => getFile) (fun _ _ => write)
    (fun _ rq => admin_auth rq) (fun _ _ => collection)
    (fun _ _ => collection_updated)
    (fun _ => "2025-01-01T00:00:00.000Z")
    (fun _ _ model => model).

Definition fresh (model : option AuthModel) : Client := mkClient [] model.

(** A [new_mosque] submission whose data carries two keys outside the
    allow-list. *)
Definition submission_new : Submission :=
  mkSubmission "s00000000000001" "new_mosque"
    (<["name" := VStr "Masjid Jamek"]>
       (<["lat" := VNum "3.1489"]>
          (<["created_by" := VStr "u0000000000000x"]>
             (<["verified" := VBool true]> ∅))))
    None None "pending" "u00000000000001".

(** An [edit_mosque] submission with an image and no [mosque_id]. *)
Definition submission_edit_no_target : Submission :=
  mkSubmission "s00000000000002" "edit_mosque"
    (<["name" := VStr "Masjid Jamek"]> ∅)
    None (Some "photo.jpg") "pending" "u00000000000001".

(** An [edit_mosque] submission with an image and a target mosque. *)
Definition submission_edit : Submission :=
  mkSubmission "s00000000000003" "edit_mosque"
    (<["name" := VStr "Masjid Jamek"]> ∅)
    (Some "m00000000000001") (Some "photo.jpg") "pending" "u00000000000001".

Definition sample_file : File := mkFile "photo.jpg" "image/jpeg" 1024.

Definition accept_all (_ : Request) : Outcome unit := Ok tt.

(** Everything succeeds; [getOne] returns [s], the image fetch answers
    [getFile]. *)
Definition backend_ok (s : Submission) (getFile : Outcome (option File))
    : Backend :=
  backend_of (Ok s) getFile (Ok tt) (Ok s) (Ok sample_model) accept_all
    (Ok sample_collection) (Ok tt).

(** The backend refuses the user's password. *)
Definition backend_wrong_password : Backend :=
  backend_of (Ok submission_new) (Ok None) (Ok tt) (Ok submission_new)
    (Throw "Failed to authenticate.") accept_all (Ok sample_collection)
    (Ok tt).

(** A service that refuses every admin authentication. *)
Definition backend_refusing_admin : Backend :=
  backend_of (Ok submission_new) (Ok None) (Ok tt) (Ok submission_new)
    (Ok sample_model) (fun _ => Throw "Failed to authenticate.")
    (Ok sample_collection) (Ok tt).

(** An environment with the URL and the admin credentials. *)
Definition sample_env : gmap string string :=
  <["VITE_POCKETBASE_URL" := "http://127.0.0.1:8090"]>
    (<["POCKETBASE_ADMIN_EMAIL" := "admin@example.com"]>
       (<["POCKETBASE_ADMIN_PASSWORD" := "correct horse"]> ∅)).

(** ** submissionsApi.create

    [create] builds the body of one [pb.collection('submissions').create]
    call, or throws before it.  The bodies it sends are returned beside its
    outcome. *)

(** A top-level property value of the argument of [create], by the case the
    field loop takes for it. *)
Inductive field : Type :=
| FNullish                      (* null or undefined *)
| FDate (iso : option string)   (* a Date: its toISOString(), none if invalid *)
| FString (s : string)
| FScalar (shown : string)      (* a number or boolean, by String(value) *)
| FJson (v : value)             (* an object or array, neither File nor Date *)
| FOther (shown : string).      (* anything else, by String(value) *)

(** A value of a [FormData] entry. *)
Inductive FormValue : Type :=
| FText (s : string)
| FBlob (file : File).

(** What is handed to [pb.collection('submissions').create]. *)
Inductive CreateBody : Type :=
| FormDataBody (entries : list (string * FormValue))
| ObjectBody (properties : list (string * field)).

(** Recognisers for the requests of [approve] that write. *)
Definition is_mosque_write (rq : Request) : bool :=
  match rq with
  | MosquesCreate _ _ | MosquesUpdate _ _ _ => true
  | _ => false
  end.

Definition is_update (rq : Request) : bool :=
  match rq with
  | Update _ _ _ => true
  | _ => false
  end.

Module createSubmission.
Section Create.
Variable V : Validation.
(** [JSON.stringify], which returns the text or throws. *)
Variable JSON_stringify : value -> Outcome string.
(** The answer of the backend to the creation. *)
Variable answer : CreateBody -> Outcome Submission.

(** [object.key], for an object given by its entries. *)
Definition property (key : string) (entries : list (string * field)) : field :=
  match find (fun kv => String.eqb kv.1 key) entries with
  | Some kv => kv.2
  | None => FNullish
  end.

(** The own enumerable properties that [{ image, ...rest } = x] reads from
    [x]: the entries of an object, the indexed items of an array, the indexed
    characters of a string, nothing for the other values. *)
Definition own_entries (x : field) : list (string * value) :=
  match x with
  | FJson (VObj entries) => entries
  | FJson (VArr items) => imap (fun i item => (pretty i, item)) items
  | FString s =>
      imap (fun i a => (pretty i, VStr (String a EmptyString)))
        (String.list_ascii_of_string s)
  | _ => []
  end.

(** [const { image, ...dataWithoutImage } = submissionData.data || {}] *)
Definition dataWithoutImage (submissionData : list (string * field))
    : list (string * value) :=
  List.filter (fun kv => negb (String.eqb kv.1 "image"))
    (own_entries (property "data" submissionData)).

(** One turn of the field loop: what it appends for [key] and [value]. *)
Definition form_field (key : string) (value : field)
    : Outcome (list (string * FormValue)) :=
  if String.eqb key "data" then Ok []
  else
    match value with
    | FNullish => Ok []
    | FDate (Some iso) => Ok [(key, FText iso)]
    | FDate None => Throw "Invalid time value"
    | FString s => Ok [(key, FText s)]
    | FScalar shown => Ok [(key, FText shown)]
    | FJson v =>
        match JSON_stringify v with
        | Ok text => Ok [(key, FText text)]
        | Throw e => Throw e
        end
    | FOther shown => Ok [(key, FText shown)]
    end.

(** [Object.entries(submissionData).forEach(...)] *)
Fixpoint form_fields (entries : list (string * field))
    : Outcome (list (string * FormValue)) :=
  match entries with
  | [] => Ok []
  | (key, value) :: rest =>
      match form_field key value with
      | Throw e => Throw e
      | Ok appended =>
          match form_fields rest with
          | Throw e => Throw e
          | Ok more => Ok (appended ++ more)
          end
      end
  end.

(** The branch with an image: the form of the fields, then the [data] entry
    as JSON without its image reference, then the file. *)
Definition upload (submissionData : list (string * field)) (imageFile : File)
    : Outcome Submission * list CreateBody :=
  match form_fields submissionData with
  | Throw e => (Throw e, [])
  | Ok formData =>
      match JSON_stringify (VObj (dataWithoutImage submissionData)) with
      | Throw e => (Throw e, [])
      | Ok json =>
          let body :=
            FormDataBody
              (formData ++ [("data", FText json); ("image", FBlob imageFile)])
          in
          (answer body, [body])
      end
  end.

(** [create(data)], with [submissionData] the entries of [data] other than
    [imageFile], in their order. *)
Definition create (submissionData : list (string * field))
    (imageFile : option File) : Outcome Submission * list CreateBody :=
  match imageFile with
  | Some imageFile =>
      match validateImageFile V imageFile with
      | Some validationError =>
          if truthy (Some validationError)
          then (Throw validationError, [])
          else upload submissionData imageFile
      | None => upload submissionData imageFile
      end
  | None =>
      let body := ObjectBody submissionData in
      (answer body, [body])
  end.

End Create.
End createSubmission.

(** ** Basic facts about runs *)

Lemma requests_of_app {A} (m : M A) (c : Client) (new : list Request) :
  issued (m c).2 = issued c ++ new -> requests_of m c = new.
Proof.
  intros H. unfold requests_of. rewrite H. apply drop_app_length.
Qed.

Lemma requests_of_nil {A} (m : M A) (c : Client) :
  (m c).2 = c -> requests_of m c = [].
Proof.
  intros H. apply requests_of_app. rewrite H. symmetry. apply app_nil_r.
Qed.

Lemma truthy_Some (s : string) : truthy (Some s) = true <-> s <> "".
Proof.
  simpl. rewrite negb_true_iff. apply String.eqb_neq.
Qed.

Lemma truthy_Some_false (s : string) : truthy (Some s) = false <-> s = "".
Proof.
  simpl. rewrite negb_false_iff. apply String.eqb_eq.
Qed.

Lemma append_empty_r (s : string) : s +:+ "" = s.
Proof.
  induction s as [|a s IH]; [reflexivity|].
  change (String a (s +:+ "") = String a s). now rewrite IH.
Qed.

Lemma append_assoc (s1 s2 s3 : string) :
  (s1 +:+ s2) +:+ s3 = s1 +:+ s2 +:+ s3.
Proof.
  induction s1 as [|a s1 IH]; [reflexivity|].
  change (String a ((s1 +:+ s2) +:+ s3) = String a (s1 +:+ s2 +:+ s3)).
  now rewrite IH.
Qed.

Lemma listed (s : string) (l : list string) :
  bool_decide (s ∈ l) = true -> s ∈ l.
Proof. apply bool_decide_eq_true. Qed.

Lemma not_listed (s : string) (l : list string) :
  bool_decide (s ∈ l) = false -> s ∉ l.
Proof. apply bool_decide_eq_false. Qed.

Lemma last_request_app (l : list Request) (a b : Request) :
  (l ++ [a]) ++ [b] = l ++ [a; b].
Proof. now rewrite <- app_assoc. Qed.

(** Unfolding of the wrappers that only read, validate and forward. *)
Ltac run_api :=
  unfold submissionsApi.listMySubmissions, submissionsApi.list,
    submissionsApi.get, submissionsApi.update, usersApi.get, usersApi.update,
    usersApi.updatePassword, get_authStore_model, save_authStore,
    try_catch, bind, ret, throw, await in *.

(** * Listing submissions *)

(** C9. [listMySubmissions] without a session throws 'User not authenticated'
    and leaves the client as it was, so nothing is requested.  With a session,
    every request it issues is a [getList] on [submissions] whose filter is
    the text [submitted_by = "<id of the current user>"], followed by nothing
    or by [ && status = "<status>"] for a validated status.  [quote] is the
    double-quote character. *)
Theorem C9_listMySubmissions_own_only (B : Backend) (V : Validation)
    (status : option string) (c : Client) :
  let quote := String (Ascii.ascii_of_nat 34) EmptyString in
  (authStore_model c = None ->
     submissionsApi.listMySubmissions B V status c
     = (Throw "User not authenticated", c)) /\
  (forall model, authStore_model c = Some model ->
     forall rq,
       rq ∈ requests_of (submissionsApi.listMySubmissions B V status) c ->
       exists rest,
         rq = GetList "submissions" 1 100
                (Some ("submitted_by = " +:+ quote +:+ model_id model
                       +:+ quote +:+ rest))
                "-submitted_at"
         /\ (rest = "" \/
             exists s, status = Some s /\ validateSubmissionStatus V s = true /\
                       rest = " && status = " +:+ quote +:+ s +:+ quote)).
Proof.
  cbn zeta. split.
  - intros Hm. run_api. rewrite Hm. reflexivity.
  - intros model Hm rq. unfold requests_of. run_api. rewrite Hm.
    assert (Hshape : forall id rest : string,
               submissionsApi.submitted_by_clause id +:+ rest
               = "submitted_by = " +:+ String (Ascii.ascii_of_nat 34) EmptyString
                 +:+ id +:+ String (Ascii.ascii_of_nat 34) EmptyString
                 +:+ rest).
    { intros id rest. unfold submissionsApi.submitted_by_clause, dq.
      now rewrite !append_assoc. }
    destruct status as [s|];
      [destruct (truthy (Some s)) eqn:Hs;
       [destruct (validateSubmissionStatus V s) eqn:Hv|]|];
      cbn [negb fst snd issued];
      rewrite ?drop_app_length, ?drop_all; intros Hin.
    + apply list_elem_of_singleton in Hin. subst rq.
      exists (" && status = " +:+ String (Ascii.ascii_of_nat 34) EmptyString
              +:+ s +:+ String (Ascii.ascii_of_nat 34) EmptyString).
      split.
      * rewrite <- Hshape. reflexivity.
      * right. exists s. auto.
    + inversion Hin.
    + apply list_elem_of_singleton in Hin. subst rq.
      exists "". rewrite <- Hshape, append_empty_r. auto.
    + apply list_elem_of_singleton in Hin. subst rq.
      exists "". rewrite <- Hshape, append_empty_r. auto.
Qed.

(** As stated, C2 fails on the empty string: it is none of the three status
    values, yet [list] takes it for an absent argument and queries the
    backend. *)
Lemma C2_empty_status_not_rejected :
  ~ (forall (B : Backend) (V : Validation) (c : Client) (status : string),
       (forall s, validateSubmissionStatus V s = true
                  <-> s ∈ SUBMISSION_STATUSES) ->
       status ∉ SUBMISSION_STATUSES ->
       submissionsApi.list B V (Some status) c
       = (Throw "Invalid status parameter", c)).
Proof.
  intros H.
  specialize (H (backend_ok submission_new (Ok None)) sample_validation
                (fresh None) "").
  assert (Hgo : submissionsApi.list (backend_ok submission_new (Ok None))
                  sample_validation (Some "") (fresh None)
                = (Ok [], mkClient
                            [GetList "submissions" 1 100 (Some "")
                               "-submitted_at"] None))
    by reflexivity.
  rewrite Hgo in H.
  assert (Hthrow : (Ok [] : Outcome (list Submission),
                    mkClient [GetList "submissions" 1 100 (Some "")
                                "-submitted_at"] None)
                   = (Throw "Invalid status parameter", fresh None));
    [|discriminate Hthrow].
  apply H.
  - intros s. unfold sample_validation, spec_validateSubmissionStatus. simpl.
    apply bool_decide_eq_true.
  - now apply not_listed.
Qed.

(** C2 (amended).  With a validator that accepts exactly pending, approved and
    rejected: a non-empty status outside these makes [list] throw 'Invalid
    status parameter' with nothing requested; [listMySubmissions] does the
    same when a session is present and throws 'User not authenticated'
    otherwise.  An empty status is handled as an absent one.  Whatever the
    status argument, a request of [list] carries either the empty filter or
    the status clause of one of the three values. *)
Theorem C2_invalid_status_rejected (B : Backend) (V : Validation) (c : Client) :
  (forall s, validateSubmissionStatus V s = true <-> s ∈ SUBMISSION_STATUSES) ->
  (forall status, status ∉ SUBMISSION_STATUSES -> status <> "" ->
     submissionsApi.list B V (Some status) c
     = (Throw "Invalid status parameter", c)
     /\ (authStore_model c <> None ->
         submissionsApi.listMySubmissions B V (Some status) c
         = (Throw "Invalid status parameter", c))
     /\ (authStore_model c = None ->
         submissionsApi.listMySubmissions B V (Some status) c
         = (Throw "User not authenticated", c)))
  /\ submissionsApi.list B V (Some "") c = submissionsApi.list B V None c
  /\ submissionsApi.listMySubmissions B V (Some "") c
     = submissionsApi.listMySubmissions B V None c
  /\ (forall status rq, rq ∈ requests_of (submissionsApi.list B V status) c ->
        rq = GetList "submissions" 1 100 (Some "") "-submitted_at"
        \/ exists s, s ∈ SUBMISSION_STATUSES /\ status = Some s /\
             rq = GetList "submissions" 1 100
                    (Some (submissionsApi.status_clause s)) "-submitted_at").
Proof.
  intros HV. repeat split.
  - run_api. apply truthy_Some in H0. rewrite H0.
    destruct (validateSubmissionStatus V status) eqn:Hv; [|reflexivity].
    apply HV in Hv. contradiction.
  - intros Hm. run_api. destruct (authStore_model c); [|contradiction].
    apply truthy_Some in H0. rewrite H0.
    destruct (validateSubmissionStatus V status) eqn:Hv; [|reflexivity].
    apply HV in Hv. contradiction.
  - intros Hm. run_api. rewrite Hm. reflexivity.
  - intros status rq. unfold requests_of. run_api.
    destruct status as [s|];
      [destruct (truthy (Some s)) eqn:Hs;
       [destruct (validateSubmissionStatus V s) eqn:Hv|]|];
      cbn [negb fst snd issued];
      rewrite ?drop_app_length, ?drop_all; intros Hin.
    + apply list_elem_of_singleton in Hin. right. exists s.
      split; [now apply HV|auto].
    + inversion Hin.
    + apply list_elem_of_singleton in Hin. now left.
    + apply list_elem_of_singleton in Hin. now left.
Qed.

Lemma C2_invalid_status_rejected_witness :
  submissionsApi.list (backend_ok submission_new (Ok None)) sample_validation
    (Some "pending' || '1'='1") (fresh None)
  = (Throw "Invalid status parameter", fresh None).
Proof.
  assert (HV : forall s, validateSubmissionStatus sample_validation s = true
                         <-> s ∈ SUBMISSION_STATUSES)
    by (intros s; apply bool_decide_eq_true).
  destruct (C2_invalid_status_rejected (backend_ok submission_new (Ok None))
              sample_validation (fresh None) HV) as [H _].
  apply (H "pending' || '1'='1").
  - now apply not_listed.
  - discriminate.
Defined.

(** * Record ids *)

(** As stated, C3 fails for [usersApi.get]: it has no format check, so an id
    that the validator rejects is sent to the backend. *)
Lemma C3_usersApi_get_forwards_rejected_id :
  ~ (forall (B : Backend) (V : Validation) (c : Client) (id : string),
       validateRecordId V id = false ->
       exists e, usersApi.get B id c = (Throw e, c)).
Proof.
  intros H.
  destruct (H (backend_ok submission_new (Ok None)) sample_validation
              (fresh None) "1 || true" eq_refl) as [e He].
  discriminate He.
Qed.

(** C3 (amended).  For an id that fails [validateRecordId],
    [submissionsApi.get] throws 'Invalid submission ID format' with nothing
    requested, and so does [approve], which starts with [get].
    [submissionsApi.update], [usersApi.get] and [usersApi.update] have no
    check: each issues its one request with the id as given. *)
Theorem C3_record_id_checked_by_get (B : Backend) (V : Validation)
    (c : Client) (id : string) :
  validateRecordId V id = false ->
  submissionsApi.get B V id c = (Throw "Invalid submission ID format", c)
  /\ (forall reviewedBy,
        submissionsApi.approve B V id reviewedBy c
        = (Throw "Invalid submission ID format", c))
  /\ (forall data,
        requests_of (submissionsApi.update B id data) c
        = [Update "submissions" id data])
  /\ requests_of (usersApi.get B id) c = [GetOne "users" id]
  /\ (forall data,
        requests_of (usersApi.update B id data) c = [Update "users" id data]).
Proof.
  intros Hid.
  assert (Hget : submissionsApi.get B V id c
                 = (Throw "Invalid submission ID format", c))
    by (run_api; now rewrite Hid).
  split; [exact Hget|]. split; [|repeat split].
  - intros reviewedBy. unfold submissionsApi.approve, bind.
    now rewrite Hget.
  - intros data. now apply requests_of_app.
  - now apply requests_of_app.
  - intros data. now apply requests_of_app.
Qed.

Lemma C3_record_id_checked_by_get_witness :
  submissionsApi.get (backend_ok submission_new (Ok None)) sample_validation
    "1 || true" (fresh None)
  = (Throw "Invalid submission ID format", fresh None).
Proof.
  apply (C3_record_id_checked_by_get (backend_ok submission_new (Ok None))
           sample_validation (fresh None) "1 || true").
  reflexivity.
Defined.

(** * Changing the password *)

(** C4. With a session present, the first request of [updatePassword] is the
    authentication of the stored email with the old password.  If it is
    refused, that is the only request (no update is issued) and the call
    throws 'Current password is incorrect'.  If it is accepted, one more
    request follows: the update of the authenticated user's record whose
    body holds the new password under [password] and the confirmation under
    [passwordConfirm], and nothing else; the call then returns if the update
    is accepted and throws the update's error if not. *)
Theorem C4_updatePassword_verifies_old_password (B : Backend) (c : Client)
    (model : AuthModel) (oldPassword newPassword passwordConfirm : string) :
  authStore_model c = Some model ->
  let auth := AuthWithPassword "users" (model_email model) oldPassword in
  let call := usersApi.updatePassword B oldPassword newPassword passwordConfirm in
  (forall e, users_authWithPassword B (issued c) auth = Throw e ->
     outcome_of call c = Throw "Current password is incorrect"
     /\ requests_of call c = [auth])
  /\ (forall authenticated,
        users_authWithPassword B (issued c) auth = Ok authenticated ->
        exists body,
          requests_of call c
          = [auth; Update "users" (model_id authenticated) body]
          /\ body !! "password" = Some (VStr newPassword)
          /\ body !! "passwordConfirm" = Some (VStr passwordConfirm)
          /\ (forall k, is_Some (body !! k) ->
                k = "password" \/ k = "passwordConfirm")
          /\ (forall user,
                users_update B (issued c ++ [auth])
                  (Update "users" (model_id authenticated) body) = Ok user ->
                outcome_of call c = Ok tt)
          /\ (forall e,
                users_update B (issued c ++ [auth])
                  (Update "users" (model_id authenticated) body) = Throw e ->
                outcome_of call c = Throw e)).
Proof.
  intros Hm auth call. subst auth call. split.
  - intros e He. unfold outcome_of, requests_of. run_api.
    rewrite Hm, He. cbn [fst snd issued].
    now rewrite drop_app_length.
  - intros authenticated Hok.
    exists (usersApi.password_body newPassword passwordConfirm).
    unfold outcome_of, requests_of, usersApi.updatePassword,
      usersApi.await_update.
    run_api. rewrite Hm, Hok. cbn [fst snd issued authStore_model].
    split; [|split; [|split; [|split; [|split]]]].
    + destruct (users_update B _ _); cbn [fst snd issued];
        now rewrite last_request_app, drop_app_length.
    + apply lookup_insert_eq.
    + unfold usersApi.password_body.
      rewrite lookup_insert_ne by discriminate. apply lookup_insert_eq.
    + intros k [v Hk]. unfold usersApi.password_body in Hk.
      destruct (decide (k = "password")) as [->|H1]; [now left|].
      rewrite lookup_insert_ne in Hk by congruence.
      destruct (decide (k = "passwordConfirm")) as [->|H2]; [now right|].
      rewrite lookup_insert_ne in Hk by congruence.
      rewrite lookup_empty in Hk. discriminate Hk.
    + intros user Hupd. now rewrite Hupd.
    + intros e Hupd. now rewrite Hupd.
Qed.

Lemma C4_updatePassword_verifies_old_password_witness :
  let call :=
    usersApi.updatePassword backend_wrong_password
      "guess" "n3w-password" "n3w-password" in
  outcome_of call (fresh (Some sample_model))
  = Throw "Current password is incorrect"
  /\ requests_of call (fresh (Some sample_model))
     = [AuthWithPassword "users" "aisyah@example.com" "guess"].
Proof.
  destruct (C4_updatePassword_verifies_old_password backend_wrong_password
              (fresh (Some sample_model)) sample_model
              "guess" "n3w-password" "n3w-password" eq_refl)
    as [Hrefused _].
  apply (Hrefused "Failed to authenticate."). reflexivity.
Defined.

(** * Approving a submission *)

Section Approve.
Variable B : Backend.
Variable V : Validation.

Lemma sent_sent (c : Client) (l1 l2 : list Request) :
  sent (sent c l1) l2 = sent c (l1 ++ l2).
Proof. unfold sent. simpl. now rewrite <- app_assoc. Qed.

Lemma sent_nil (c : Client) : sent c [] = c.
Proof. destruct c. unfold sent. simpl. now rewrite app_nil_r. Qed.

Lemma requests_of_sent {A} (m : M A) (c : Client) (o : Outcome A)
    (l : list Request) :
  m c = (o, sent c l) -> requests_of m c = l.
Proof. intros H. apply requests_of_app. now rewrite H. Qed.

(** The copying loop, key by key. *)
Lemma copy_fields_lookup (data : Obj) (fields : list string) (acc : Obj)
    (k : string) :
  foldl (submissionsApi.copy_field data) acc fields !! k
  = if bool_decide (k ∈ fields)
    then match copied data k with Some v => Some v | None => acc !! k end
    else acc !! k.
Proof.
  revert acc. induction fields as [|f fields IH]; intros acc.
  - reflexivity.
  - cbn [foldl]. rewrite IH.
    assert (Hstep : submissionsApi.copy_field data acc f !! k
                    = if decide (k = f)
                      then match copied data k with
                           | Some v => Some v | None => acc !! k end
                      else acc !! k).
    { unfold submissionsApi.copy_field, copied.
      destruct (decide (k = f)) as [->|Hne].
      - destruct (data !! f) as [v|]; [|reflexivity].
        destruct (defined v); [apply lookup_insert_eq | reflexivity].
      - destruct (data !! f) as [v|]; [|reflexivity].
        destruct (defined v); [|reflexivity].
        apply lookup_insert_ne. congruence. }
    rewrite Hstep.
    destruct (decide (k = f)) as [->|Hne].
    + rewrite (bool_decide_eq_true_2 (f ∈ f :: fields))
        by apply list_elem_of_here.
      destruct (bool_decide (f ∈ fields)); destruct (copied data f);
        reflexivity.
    + destruct (bool_decide (k ∈ fields)) eqn:Hin.
      * apply bool_decide_eq_true in Hin.
        rewrite (bool_decide_eq_true_2 (k ∈ f :: fields))
          by now apply list_elem_of_further.
        reflexivity.
      * apply bool_decide_eq_false in Hin.
        rewrite (bool_decide_eq_false_2 (k ∈ f :: fields)); [reflexivity|].
        rewrite elem_of_cons. tauto.
Qed.

Lemma sanitize_lookup (data : Obj) (k : string) :
  submissionsApi.sanitize data !! k
  = if bool_decide (k ∈ submissionsApi.ALLOWED_MOSQUE_FIELDS)
    then copied data k else None.
Proof.
  unfold submissionsApi.sanitize. rewrite copy_fields_lookup.
  rewrite lookup_empty. destruct (bool_decide _); [|reflexivity].
  now destruct (copied data k).
Qed.

Lemma copied_Some (data : Obj) (k : string) (v : value) :
  copied data k = Some v -> data !! k = Some v.
Proof.
  unfold copied. destruct (data !! k) as [w|]; [|discriminate].
  destruct (defined w); [trivial | discriminate].
Qed.

(** The image step never throws, and issues [image_requests]. *)
Lemma fetch_image_run (s : Submission) (c : Client) :
  exists img,
    submissionsApi.fetch_image B V s c = (Ok img, sent c (image_requests s)).
Proof.
  unfold submissionsApi.fetch_image, image_requests.
  destruct (sub_image s) as [name|];
    [destruct (truthy (Some name))|];
    try (exists None; unfold ret; now rewrite sent_nil).
  unfold try_catch, bind, await, ret.
  destruct (images_getFile B _ _) as [[file|]|e]; cbn [fst snd];
    try (exists None; reflexivity).
  destruct (truthy (validateImageFile V file));
    [exists None | exists (Some file)]; reflexivity.
Qed.

(** What the create-or-update step does, by the submission's type. *)
Lemma write_mosque_cases (s : Submission) (data : Obj) (img : option File)
    (c : Client) :
  (sub_type s = "new_mosque" /\
   submissionsApi.write_mosque B V s data img c
   = await (mosques_write B) (MosquesCreate data img) c)
  \/ (sub_type s = "edit_mosque" /\
      exists mosque_id,
        sub_mosque_id s = Some mosque_id /\ mosque_id <> "" /\
        validateRecordId V mosque_id = true /\
        submissionsApi.write_mosque B V s data img c
        = await (mosques_write B) (MosquesUpdate mosque_id data img) c)
  \/ (sub_type s = "edit_mosque" /\
      exists mosque_id,
        sub_mosque_id s = Some mosque_id /\ mosque_id <> "" /\
        validateRecordId V mosque_id = false /\
        submissionsApi.write_mosque B V s data img c
        = (Throw "Invalid mosque ID format", c))
  \/ (sub_type s <> "new_mosque" /\
      (sub_type s <> "edit_mosque" \/ truthy (sub_mosque_id s) = false) /\
      submissionsApi.write_mosque B V s data img c = (Ok tt, c)).
Proof.
  unfold submissionsApi.write_mosque.
  destruct (String.eqb (sub_type s) "new_mosque") eqn:Hnew.
  { left. apply String.eqb_eq in Hnew. auto. }
  apply String.eqb_neq in Hnew. right.
  destruct (sub_mosque_id s) as [mosque_id|] eqn:Hmid.
  2:{ right. right. unfold ret. auto. }
  destruct (String.eqb (sub_type s) "edit_mosque") eqn:Hedit.
  2:{ right. right. apply String.eqb_neq in Hedit. unfold ret.
      cbn [andb]. auto. }
  apply String.eqb_eq in Hedit. cbn [andb].
  destruct (truthy (Some mosque_id)) eqn:Ht.
  2:{ right. right. unfold ret. auto. }
  apply truthy_Some in Ht.
  destruct (validateRecordId V mosque_id) eqn:Hvalid; cbn [negb].
  - left. split; [exact Hedit|]. exists mosque_id. auto.
  - right. left. split; [exact Hedit|]. exists mosque_id. unfold throw. auto.
Qed.

(** [approve] after a successful [get]: the image step, then the
    create-or-update step with the sanitized data, then the update of the
    submission. *)
Lemma approve_run (id reviewedBy : string) (c : Client) (s : Submission) :
  validateRecordId V id = true ->
  submissions_getOne B (issued c) (GetOne "submissions" id) = Ok s ->
  exists img,
    submissionsApi.fetch_image B V s (sent c [GetOne "submissions" id])
    = (Ok img, sent c (GetOne "submissions" id :: image_requests s))
    /\ submissionsApi.approve B V id reviewedBy c
       = (run submissionsApi.write_mosque B V s
                (submissionsApi.sanitizedData s) img ;
          do reviewed_at <- now B ;
          submissionsApi.update B id
            (submissionsApi.approved_body reviewedBy reviewed_at))
           (sent c (GetOne "submissions" id :: image_requests s)).
Proof.
  intros Hid Hget.
  destruct (fetch_image_run s (sent c [GetOne "submissions" id]))
    as [img Himg].
  rewrite sent_sent in Himg. cbn [app] in Himg.
  exists img. split; [exact Himg|].
  unfold submissionsApi.approve, submissionsApi.get.
  rewrite Hid. cbn [negb].
  unfold bind at 1. unfold await at 1. rewrite Hget.
  change (mkClient (issued c ++ [GetOne "submissions" id])
            (authStore_model c))
    with (sent c [GetOne "submissions" id]).
  unfold bind at 1. now rewrite Himg.
Qed.

End Approve.

Lemma elem_of_image_requests (s : Submission) (rq : Request) :
  rq ∈ image_requests s ->
  exists name, sub_image s = Some name /\ name <> "" /\
               rq = GetImageFileFromRecord s name "submissions".
Proof.
  unfold image_requests. destruct (sub_image s) as [name|]; [|inversion 1].
  destruct (truthy (Some name)) eqn:Ht; [|inversion 1].
  intros Hin. apply list_elem_of_singleton in Hin.
  apply truthy_Some in Ht. eauto.
Qed.

(** C10. Let [approve] have fetched the submission.  If the create-or-update
    step throws, [approve] throws the same error and none of its requests is
    an update of a record, so the submission keeps its status, reviewer and
    review time.  In particular, for an 'edit_mosque' submission whose
    non-empty mosque_id fails [validateRecordId], [approve] throws 'Invalid
    mosque ID format' after the fetch of the submission and the image step
    only. *)
Theorem C10_failed_mosque_step_skips_update (B : Backend) (V : Validation)
    (id reviewedBy : string) (c : Client) (s : Submission) :
  validateRecordId V id = true ->
  submissions_getOne B (issued c) (GetOne "submissions" id) = Ok s ->
  let call := submissionsApi.approve B V id reviewedBy in
  (forall img c2 e,
      submissionsApi.fetch_image B V s (sent c [GetOne "submissions" id])
      = (Ok img, c2) ->
      outcome_of
        (submissionsApi.write_mosque B V s (submissionsApi.sanitizedData s) img)
        c2 = Throw e ->
      outcome_of call c = Throw e
      /\ forall rq, rq ∈ requests_of call c ->
           forall collection i body, rq <> Update collection i body)
  /\ (forall mosque_id,
        sub_type s = "edit_mosque" ->
        sub_mosque_id s = Some mosque_id ->
        mosque_id <> "" ->
        validateRecordId V mosque_id = false ->
        outcome_of call c = Throw "Invalid mosque ID format"
        /\ requests_of call c = GetOne "submissions" id :: image_requests s).
Proof.
  intros Hid Hget call. subst call.
  destruct (approve_run B V id reviewedBy c s Hid Hget) as [img0 [Himg Hrun]].
  split.
  - intros img c2 e Hfetch Hthrow.
    rewrite Himg in Hfetch. injection Hfetch as <- <-.
    unfold outcome_of, requests_of in *. rewrite Hrun. clear Hrun.
    unfold bind at 1. unfold bind at 2.
    set (c2 := sent c (GetOne "submissions" id :: image_requests s)) in *.
    destruct (write_mosque_cases B V s (submissionsApi.sanitizedData s)
                img0 c2)
      as [[_ Hw]|[[_ [m [_ [_ [_ Hw]]]]]|[[_ [m [_ [_ [_ Hw]]]]]|[_ [_ Hw]]]]];
      rewrite Hw in *; clear Hw.
    + unfold await in *. cbn [fst snd] in *. rewrite Hthrow.
      cbn [fst snd issued]. split; [reflexivity|].
      subst c2. cbn [sent issued]. rewrite <- app_assoc, drop_app_length.
      intros rq Hin collection i body ->.
      apply elem_of_cons in Hin as [Hin|Hin]; [discriminate|].
      apply elem_of_app in Hin as [Hin|Hin].
      * apply elem_of_image_requests in Hin as [? [_ [_ ?]]]. discriminate.
      * apply list_elem_of_singleton in Hin. discriminate.
    + unfold await in *. cbn [fst snd] in *. rewrite Hthrow.
      cbn [fst snd issued]. split; [reflexivity|].
      subst c2. cbn [sent issued]. rewrite <- app_assoc, drop_app_length.
      intros rq Hin collection i body ->.
      apply elem_of_cons in Hin as [Hin|Hin]; [discriminate|].
      apply elem_of_app in Hin as [Hin|Hin].
      * apply elem_of_image_requests in Hin as [? [_ [_ ?]]]. discriminate.
      * apply list_elem_of_singleton in Hin. discriminate.
    + cbn [fst snd] in *. injection Hthrow as <-. split; [reflexivity|].
      subst c2. cbn [sent issued]. rewrite drop_app_length.
      intros rq Hin collection i body ->.
      apply elem_of_cons in Hin as [Hin|Hin]; [discriminate|].
      apply elem_of_image_requests in Hin as [? [_ [_ ?]]]. discriminate.
    + cbn [fst] in Hthrow. discriminate.
  - intros mosque_id Hedit Hmid Hne Hinvalid.
    assert (Hw : forall c2,
               submissionsApi.write_mosque B V s
                 (submissionsApi.sanitizedData s) img0 c2
               = (Throw "Invalid mosque ID format", c2)).
    { intros c2. unfold submissionsApi.write_mosque.
      rewrite Hedit, Hmid, Hinvalid.
      apply truthy_Some in Hne. rewrite Hne. reflexivity. }
    unfold outcome_of, requests_of. rewrite Hrun.
    unfold bind at 1. unfold bind at 2. rewrite Hw. cbn [fst snd sent issued].
    split; [reflexivity|]. apply drop_app_length.
Qed.

Lemma C10_failed_mosque_step_skips_update_witness :
  let B := backend_ok
             (mkSubmission "s00000000000004" "edit_mosque"
                (<["name" := VStr "Masjid Jamek"]> ∅)
                (Some "../users/u1") None "pending" "u00000000000001")
             (Ok None) in
  outcome_of
    (submissionsApi.approve B sample_validation "s00000000000004"
       "a00000000000001") (fresh None)
  = Throw "Invalid mosque ID format"
  /\ requests_of
       (submissionsApi.approve B sample_validation "s00000000000004"
          "a00000000000001") (fresh None)
     = [GetOne "submissions" "s00000000000004"].
Proof.
  intros B.
  destruct (C10_failed_mosque_step_skips_update B sample_validation
              "s00000000000004" "a00000000000001" (fresh None)
              (mkSubmission "s00000000000004" "edit_mosque"
                 (<["name" := VStr "Masjid Jamek"]> ∅)
                 (Some "../users/u1") None "pending" "u00000000000001")
              eq_refl eq_refl) as [_ Hinvalid].
  apply (Hinvalid "../users/u1"); [reflexivity | reflexivity | discriminate
                                  | reflexivity].
Defined.

(** A run of [approve] that has fetched submission [s]: the image step
    yields [img]; the create-or-update step issues [rqs] and either throws,
    which ends the run, or is followed by the last step. *)
Lemma approve_trace (B : Backend) (V : Validation) (id reviewedBy : string)
    (c : Client) (s : Submission) :
  validateRecordId V id = true ->
  submissions_getOne B (issued c) (GetOne "submissions" id) = Ok s ->
  exists img rqs,
    let c2 := sent c (GetOne "submissions" id :: image_requests s) in
    submissionsApi.fetch_image B V s (sent c [GetOne "submissions" id])
    = (Ok img, c2)
    /\ mosque_step V s (submissionsApi.sanitizedData s) img rqs
    /\ ((submissionsApi.write_mosque B V s (submissionsApi.sanitizedData s)
           img c2 = (Ok tt, sent c2 rqs)
         /\ submissionsApi.approve B V id reviewedBy c
            = finish B id reviewedBy (sent c2 rqs))
        \/ (exists e,
              submissionsApi.write_mosque B V s
                (submissionsApi.sanitizedData s) img c2
              = (Throw e, sent c2 rqs)
              /\ submissionsApi.approve B V id reviewedBy c
                 = (Throw e, sent c2 rqs))).
Proof.
  intros Hid Hget.
  destruct (approve_run B V id reviewedBy c s Hid Hget) as [img [Himg Hrun]].
  exists img.
  set (c2 := sent c (GetOne "submissions" id :: image_requests s)) in *.
  set (data := submissionsApi.sanitizedData s) in *.
  assert (Hdone : forall c3,
             submissionsApi.write_mosque B V s data img c2 = (Ok tt, c3) ->
             submissionsApi.approve B V id reviewedBy c
             = finish B id reviewedBy c3).
  { intros c3 Hw. rewrite Hrun. unfold bind at 1. now rewrite Hw. }
  assert (Hfail : forall e c3,
             submissionsApi.write_mosque B V s data img c2 = (Throw e, c3) ->
             submissionsApi.approve B V id reviewedBy c = (Throw e, c3)).
  { intros e c3 Hw. rewrite Hrun. unfold bind at 1. now rewrite Hw. }
  destruct (write_mosque_cases B V s data img c2)
    as [[Hnew Hw]|[[Hedit [m [Hm [Hne [Hv Hw]]]]]
       |[[Hedit [m [Hm [Hne [Hv Hw]]]]]|[Hnew [Hskip Hw]]]]].
  - exists [MosquesCreate data img].
    split; [exact Himg|]. split; [left; auto|].
    unfold await in Hw.
    destruct (mosques_write B (issued c2) (MosquesCreate data img))
      as [[]|e]; [left | right; exists e]; split; auto.
  - exists [MosquesUpdate m data img].
    split; [exact Himg|]. split; [right; left; eauto 6|].
    unfold await in Hw.
    destruct (mosques_write B (issued c2) (MosquesUpdate m data img))
      as [[]|e]; [left | right; exists e]; split; auto.
  - exists []. split; [exact Himg|].
    split; [right; right; left; eauto 6|].
    right. exists "Invalid mosque ID format". rewrite sent_nil. auto.
  - exists []. split; [exact Himg|]. split; [right; right; right; auto|].
    left. rewrite sent_nil. auto.
Qed.

Lemma approve_invalid_id (B : Backend) (V : Validation)
    (id reviewedBy : string) (c : Client) :
  validateRecordId V id = false ->
  submissionsApi.approve B V id reviewedBy c
  = (Throw "Invalid submission ID format", c).
Proof.
  intros Hid. unfold submissionsApi.approve, submissionsApi.get, bind, throw.
  now rewrite Hid.
Qed.

Lemma approve_get_throws (B : Backend) (V : Validation)
    (id reviewedBy : string) (c : Client) (e : string) :
  validateRecordId V id = true ->
  submissions_getOne B (issued c) (GetOne "submissions" id) = Throw e ->
  submissionsApi.approve B V id reviewedBy c
  = (Throw e, sent c [GetOne "submissions" id]).
Proof.
  intros Hid Hget.
  unfold submissionsApi.approve, submissionsApi.get.
  rewrite Hid. cbn [negb]. unfold bind at 1. unfold await at 1.
  now rewrite Hget.
Qed.

Lemma requests_of_finish (B : Backend) (id reviewedBy : string) (c : Client)
    (l : list Request) :
  drop (length (issued c)) (issued (finish B id reviewedBy (sent c l)).2)
  = l ++ [Update "submissions" id
            (submissionsApi.approved_body reviewedBy
               (clock B (issued c ++ l)))].
Proof.
  unfold finish. cbn [snd sent issued].
  now rewrite <- app_assoc, drop_app_length.
Qed.

(** The data [approve] passes on for a 'new_mosque' submission. *)
Lemma sanitizedData_new_mosque (s : Submission) :
  sub_type s = "new_mosque" ->
  let data := submissionsApi.sanitizedData s in
  (forall k, is_Some (data !! k) ->
     k ∈ submissionsApi.ALLOWED_MOSQUE_FIELDS \/ k = "created_by")
  /\ data !! "created_by" = Some (VStr (sub_submitted_by s))
  /\ data !! "status" = Some (VStr "approved")
  /\ (forall k v, k <> "status" -> k <> "created_by" ->
        data !! k = Some v ->
        k ∈ submissionsApi.ALLOWED_MOSQUE_FIELDS /\
        sub_data s !! k = Some v /\ v <> VUndefined).
Proof.
  intros Hnew data. subst data. unfold submissionsApi.sanitizedData.
  rewrite Hnew. cbn [String.eqb Ascii.eqb Bool.eqb andb].
  assert (Hother : forall k v, k <> "status" -> k <> "created_by" ->
             <["created_by" := VStr (sub_submitted_by s)]>
               (<["status" := VStr "approved"]>
                  (submissionsApi.sanitize (sub_data s))) !! k = Some v ->
             k ∈ submissionsApi.ALLOWED_MOSQUE_FIELDS /\
             sub_data s !! k = Some v /\ v <> VUndefined).
  { intros k v Hs Hc.
    rewrite lookup_insert_ne by congruence.
    rewrite lookup_insert_ne by congruence.
    rewrite sanitize_lookup.
    destruct (bool_decide (k ∈ submissionsApi.ALLOWED_MOSQUE_FIELDS)) eqn:Hin;
      [|discriminate].
    apply bool_decide_eq_true in Hin. intros Hcopied.
    split; [exact Hin|]. split; [now apply copied_Some|].
    unfold copied in Hcopied.
    destruct (sub_data s !! k) as [w|]; [|discriminate].
    destruct w; try discriminate; injection Hcopied as <-; discriminate. }
  repeat split.
  - intros k [v Hv].
    destruct (decide (k = "created_by")) as [->|Hc]; [now right|].
    left. destruct (decide (k = "status")) as [->|Hs].
    + now apply listed.
    + now apply (Hother k v).
  - apply lookup_insert_eq.
  - rewrite lookup_insert_ne by discriminate. apply lookup_insert_eq.
  - now apply (Hother k v).
  - now apply (Hother k v).
  - now apply (Hother k v).
Qed.

(** The requests of a run of [approve] that went past [get], from what its
    last steps are. *)
Lemma approve_requests (B : Backend) (V : Validation) (id reviewedBy : string)
    (c : Client) (s : Submission) :
  validateRecordId V id = true ->
  submissions_getOne B (issued c) (GetOne "submissions" id) = Ok s ->
  exists img rqs tail,
    mosque_step V s (submissionsApi.sanitizedData s) img rqs
    /\ requests_of (submissionsApi.approve B V id reviewedBy) c
       = GetOne "submissions" id :: image_requests s ++ rqs ++ tail
    /\ (tail = [] \/ exists t,
          tail = [Update "submissions" id
                    (submissionsApi.approved_body reviewedBy t)]).
Proof.
  intros Hid Hget.
  destruct (approve_trace B V id reviewedBy c s Hid Hget)
    as [img [rqs [_ [Hstep [[_ Happ]|[e [_ Happ]]]]]]];
    exists img, rqs.
  - eexists. split; [exact Hstep|]. unfold requests_of. rewrite Happ.
    rewrite sent_sent, requests_of_finish. cbn [app].
    rewrite <- app_assoc. split; [reflexivity|]. right. eauto.
  - exists []. split; [exact Hstep|]. unfold requests_of. rewrite Happ.
    rewrite sent_sent. cbn [snd sent issued]. rewrite drop_app_length.
    rewrite app_nil_r. auto.
Qed.

(** As stated, C1 fails on the key [created_by]: it is a key of the data of
    [submission_new], it is not in the allow-list, and it is a key of the data
    passed to the creation call. *)
Lemma C1_created_by_key_is_passed :
  ~ (forall (B : Backend) (V : Validation) (id reviewedBy : string)
       (c : Client) (s : Submission) (data : Obj) (img : option File)
       (k : string),
       submissions_getOne B (issued c) (GetOne "submissions" id) = Ok s ->
       sub_type s = "new_mosque" ->
       MosquesCreate data img
         ∈ requests_of (submissionsApi.approve B V id reviewedBy) c ->
       is_Some (sub_data s !! k) ->
       k ∉ submissionsApi.ALLOWED_MOSQUE_FIELDS ->
       data !! k = None).
Proof.
  intros H.
  specialize (H (backend_ok submission_new (Ok None)) sample_validation
                "s00000000000001" "a00000000000001" (fresh None)
                submission_new (submissionsApi.sanitizedData submission_new)
                None "created_by" eq_refl eq_refl).
  assert (Hrun : requests_of
                   (submissionsApi.approve
                      (backend_ok submission_new (Ok None)) sample_validation
                      "s00000000000001" "a00000000000001") (fresh None)
                 = [GetOne "submissions" "s00000000000001";
                    MosquesCreate
                      (submissionsApi.sanitizedData submission_new) None;
                    Update "submissions" "s00000000000001"
                      (submissionsApi.approved_body "a00000000000001"
                         "2025-01-01T00:00:00.000Z")])
    by (vm_compute; reflexivity).
  rewrite Hrun in H.
  assert (Hnone : submissionsApi.sanitizedData submission_new !! "created_by"
                  = None).
  { apply H.
    - apply list_elem_of_further, list_elem_of_here.
    - exists (VStr "u0000000000000x"). reflexivity.
    - now apply not_listed. }
  vm_compute in Hnone. discriminate Hnone.
Qed.

(** C1 (amended).  Whenever [approve] issues a mosque creation, the fetched
    submission is a 'new_mosque' one and the data of the creation has only
    keys of the allow-list and the key [created_by].  [created_by] is the
    submitter of the submission and [status] is 'approved', whatever
    [submission.data] holds under these names; every other field passed is
    an allow-listed field of [submission.data], with its value.  So a key of
    [submission.data] outside the allow-list, other than [created_by], is
    absent from the data of the creation. *)
Theorem C1_new_mosque_allow_list (B : Backend) (V : Validation)
    (id reviewedBy : string) (c : Client) (data : Obj) (img : option File) :
  MosquesCreate data img
    ∈ requests_of (submissionsApi.approve B V id reviewedBy) c ->
  exists s,
    submissions_getOne B (issued c) (GetOne "submissions" id) = Ok s
    /\ sub_type s = "new_mosque"
    /\ (forall k, is_Some (data !! k) ->
          k ∈ submissionsApi.ALLOWED_MOSQUE_FIELDS \/ k = "created_by")
    /\ data !! "created_by" = Some (VStr (sub_submitted_by s))
    /\ data !! "status" = Some (VStr "approved")
    /\ (forall k v, k <> "status" -> k <> "created_by" ->
          data !! k = Some v ->
          k ∈ submissionsApi.ALLOWED_MOSQUE_FIELDS /\
          sub_data s !! k = Some v /\ v <> VUndefined)
    /\ (forall k, k ∉ submissionsApi.ALLOWED_MOSQUE_FIELDS ->
          k <> "created_by" -> data !! k = None).
Proof.
  intros Hin.
  destruct (validateRecordId V id) eqn:Hid.
  2:{ unfold requests_of in Hin.
      rewrite (approve_invalid_id B V id reviewedBy c Hid) in Hin.
      cbn [snd] in Hin. rewrite drop_all in Hin. inversion Hin. }
  destruct (submissions_getOne B (issued c) (GetOne "submissions" id))
    as [s|e] eqn:Hget.
  2:{ unfold requests_of in Hin.
      rewrite (approve_get_throws B V id reviewedBy c e Hid Hget) in Hin.
      cbn [snd sent issued] in Hin. rewrite drop_app_length in Hin.
      apply list_elem_of_singleton in Hin. discriminate Hin. }
  exists s. split; [reflexivity|].
  destruct (approve_requests B V id reviewedBy c s Hid Hget)
    as [img0 [rqs [tail [Hstep [Hrqs Htail]]]]].
  rewrite Hrqs in Hin.
  apply elem_of_cons in Hin as [Hin|Hin]; [discriminate|].
  apply elem_of_app in Hin as [Hin|Hin].
  { apply elem_of_image_requests in Hin as [? [_ [_ ?]]]. discriminate. }
  apply elem_of_app in Hin as [Hin|Hin].
  2:{ destruct Htail as [->|[t ->]]; [inversion Hin|].
      apply list_elem_of_singleton in Hin. discriminate. }
  destruct Hstep as [[Hnew ->]|[[_ [m [_ [_ [_ ->]]]]]
                    |[[_ [m [_ [_ [_ ->]]]]]|[_ [_ ->]]]]];
    try (inversion Hin; fail);
    try (apply list_elem_of_singleton in Hin; discriminate).
  apply list_elem_of_singleton in Hin. injection Hin as -> ->.
  split; [exact Hnew|].
  destruct (sanitizedData_new_mosque s Hnew) as [Hkeys [Hby [Hst Hrest]]].
  repeat split; try assumption; try (now apply (Hrest k v)).
  intros k Hk Hc.
  destruct (submissionsApi.sanitizedData s !! k) as [v|] eqn:Hv;
    [|reflexivity].
  destruct (Hkeys k) as [?|?]; [eauto | contradiction | contradiction].
Qed.

Lemma C1_new_mosque_allow_list_witness :
  exists s,
    s = submission_new
    /\ submissionsApi.sanitizedData submission_new !! "verified" = None
    /\ submissionsApi.sanitizedData submission_new !! "created_by"
       = Some (VStr (sub_submitted_by s)).
Proof.
  destruct (C1_new_mosque_allow_list
              (backend_ok submission_new (Ok None)) sample_validation
              "s00000000000001" "a00000000000001" (fresh None)
              (submissionsApi.sanitizedData submission_new) None)
    as [s [Hget [_ [_ [Hby [_ [_ Hout]]]]]]].
  - apply list_elem_of_further, list_elem_of_here.
  - injection Hget as <-. exists submission_new.
    split; [reflexivity|]. split; [|exact Hby].
    apply Hout; [now apply not_listed | discriminate].
Defined.

(** An image reaches the create-or-update step only if the fetch returned it
    and [validateImageFile] found no error in it. *)
Lemma fetch_image_validated (B : Backend) (V : Validation) (s : Submission)
    (c c' : Client) (file : File) :
  submissionsApi.fetch_image B V s c = (Ok (Some file), c') ->
  exists name,
    sub_image s = Some name
    /\ images_getFile B (issued c)
         (GetImageFileFromRecord s name "submissions") = Ok (Some file)
    /\ truthy (validateImageFile V file) = false.
Proof.
  unfold submissionsApi.fetch_image.
  destruct (sub_image s) as [name|]; [|discriminate].
  destruct (truthy (Some name)); [|discriminate].
  unfold try_catch, bind, await, ret.
  destruct (images_getFile B _ _) as [[f|]|e] eqn:Hfetch; try discriminate.
  destruct (truthy (validateImageFile V f)) eqn:Hvalid; [discriminate|].
  intros Heq. injection Heq as -> _. eauto.
Qed.

(** The image step when the fetch throws or the fetched file fails
    validation: no error, no image. *)
Lemma fetch_image_failed (B : Backend) (V : Validation) (s : Submission)
    (c : Client) (name : string) :
  sub_image s = Some name ->
  name <> "" ->
  (exists e, images_getFile B (issued c)
               (GetImageFileFromRecord s name "submissions") = Throw e)
  \/ (exists file,
        images_getFile B (issued c)
          (GetImageFileFromRecord s name "submissions") = Ok (Some file)
        /\ truthy (validateImageFile V file) = true) ->
  submissionsApi.fetch_image B V s c
  = (Ok None, sent c [GetImageFileFromRecord s name "submissions"]).
Proof.
  intros Himage Hname Hfail. unfold submissionsApi.fetch_image.
  rewrite Himage. apply truthy_Some in Hname. rewrite Hname.
  unfold try_catch, bind, await, ret.
  destruct Hfail as [[e ->]|[file [-> Hinvalid]]]; [reflexivity|].
  now rewrite Hinvalid.
Qed.

(** As stated, C7 fails for an 'edit_mosque' submission without a
    [mosque_id]: the approval completes without error and no mosque record
    is created or updated. *)
Lemma C7_edit_without_target_writes_no_mosque :
  ~ (forall (B : Backend) (V : Validation) (id reviewedBy : string)
       (c : Client) (approved : Submission),
       outcome_of (submissionsApi.approve B V id reviewedBy) c = Ok approved ->
       exists rq, rq ∈ requests_of (submissionsApi.approve B V id reviewedBy) c
                  /\ ((exists data img, rq = MosquesCreate data img)
                      \/ (exists mosque_id data img,
                            rq = MosquesUpdate mosque_id data img))).
Proof.
  intros H.
  destruct (H (backend_ok submission_edit_no_target (Ok (Some sample_file)))
              sample_validation "s00000000000002" "a00000000000001"
              (fresh None) submission_edit_no_target eq_refl)
    as [rq [Hin Hrq]].
  assert (Hrun : requests_of
                   (submissionsApi.approve
                      (backend_ok submission_edit_no_target
                         (Ok (Some sample_file)))
                      sample_validation "s00000000000002" "a00000000000001")
                   (fresh None)
                 = [GetOne "submissions" "s00000000000002";
                    GetImageFileFromRecord submission_edit_no_target
                      "photo.jpg" "submissions";
                    Update "submissions" "s00000000000002"
                      (submissionsApi.approved_body "a00000000000001"
                         "2025-01-01T00:00:00.000Z")])
    by (vm_compute; reflexivity).
  rewrite Hrun in Hin.
  repeat (apply elem_of_cons in Hin as [->|Hin];
          [destruct Hrq as [[? [? ?]]|[? [? [? ?]]]]; discriminate|]).
  inversion Hin.
Qed.

(** C7 (amended).  A call of [approve] that returns has issued, in this
    order: the fetch of the submission; the fetch of its image, if it has
    one; the creation of a mosque for a 'new_mosque' submission, or the update
    of the mosque [mosque_id] for an 'edit_mosque' submission with a non-empty
    [mosque_id], or no mosque request at all for any other submission; and
    last the update of the submission to status 'approved' with [reviewed_by]
    the reviewer and [reviewed_at] the time read after the preceding step.
    The mosque request carries the sanitized data of the fetched submission,
    and an image only if it was fetched and passed [validateImageFile]. *)
Theorem C7_approve_order (B : Backend) (V : Validation)
    (id reviewedBy : string) (c : Client) (approved : Submission) :
  outcome_of (submissionsApi.approve B V id reviewedBy) c = Ok approved ->
  exists s img rqs,
    let data := submissionsApi.sanitizedData s in
    let before := GetOne "submissions" id :: image_requests s ++ rqs in
    let last := Update "submissions" id
                  (submissionsApi.approved_body reviewedBy
                     (clock B (issued c ++ before))) in
    validateRecordId V id = true
    /\ submissions_getOne B (issued c) (GetOne "submissions" id) = Ok s
    /\ requests_of (submissionsApi.approve B V id reviewedBy) c
       = before ++ [last]
    /\ ((sub_type s = "new_mosque" /\ rqs = [MosquesCreate data img])
        \/ (sub_type s = "edit_mosque" /\
            exists mosque_id,
              sub_mosque_id s = Some mosque_id /\ mosque_id <> "" /\
              validateRecordId V mosque_id = true /\
              rqs = [MosquesUpdate mosque_id data img])
        \/ (sub_type s <> "new_mosque" /\
            (sub_type s <> "edit_mosque" \/ truthy (sub_mosque_id s) = false) /\
            rqs = []))
    /\ (forall file, img = Some file ->
          exists name,
            sub_image s = Some name
            /\ images_getFile B (issued c ++ [GetOne "submissions" id])
                 (GetImageFileFromRecord s name "submissions") = Ok (Some file)
            /\ truthy (validateImageFile V file) = false)
    /\ submissions_update B (issued c ++ before) last = Ok approved.
Proof.
  unfold outcome_of. intros Hok.
  destruct (validateRecordId V id) eqn:Hid.
  2:{ rewrite (approve_invalid_id B V id reviewedBy c Hid) in Hok.
      discriminate Hok. }
  destruct (submissions_getOne B (issued c) (GetOne "submissions" id))
    as [s|e] eqn:Hget.
  2:{ rewrite (approve_get_throws B V id reviewedBy c e Hid Hget) in Hok.
      discriminate Hok. }
  destruct (approve_trace B V id reviewedBy c s Hid Hget)
    as [img [rqs [Hfetch [Hstep [[Hw Happ]|[e [_ Happ]]]]]]].
  2:{ rewrite Happ in Hok. discriminate Hok. }
  exists s, img, rqs. cbn zeta.
  split; [reflexivity|]. split; [reflexivity|].
  rewrite Happ in Hok. rewrite sent_sent in Hok. cbn [app] in Hok.
  split; [|split; [|split; [|exact Hok]]].
  - unfold requests_of. rewrite Happ, sent_sent, requests_of_finish.
    reflexivity.
  - destruct Hstep as [Hs|[Hs|[[Hedit [m [Hm [Hne [Hv _]]]]]|Hs]]]; auto.
    exfalso. unfold submissionsApi.write_mosque in Hw.
    rewrite Hedit, Hm, Hv in Hw. apply truthy_Some in Hne.
    rewrite Hne in Hw. discriminate Hw.
  - intros file ->.
    apply (fetch_image_validated B V s _ _ file Hfetch).
Qed.

Lemma C7_approve_order_witness :
  let B := backend_ok submission_edit (Ok (Some sample_file)) in
  let call := submissionsApi.approve B sample_validation "s00000000000003"
                "a00000000000001" in
  exists s rqs t,
    submissions_getOne B [] (GetOne "submissions" "s00000000000003") = Ok s
    /\ requests_of call (fresh None)
       = (GetOne "submissions" "s00000000000003" :: image_requests s ++ rqs)
         ++ [Update "submissions" "s00000000000003"
               (submissionsApi.approved_body "a00000000000001" t)].
Proof.
  intros B call.
  destruct (C7_approve_order B sample_validation "s00000000000003"
              "a00000000000001" (fresh None) submission_edit eq_refl)
    as [s [img [rqs [_ [Hget [Hrqs _]]]]]].
  exists s, rqs. eexists. split; [exact Hget | exact Hrqs].
Defined.

(** As stated, C5 fails for an 'edit_mosque' submission without a
    [mosque_id]: the image fetch throws, the approval completes, and no
    mosque record is created or updated. *)
Lemma C5_failed_image_edit_without_target :
  ~ (forall (B : Backend) (V : Validation) (id reviewedBy : string)
       (c : Client) (s approved : Submission) (name e : string),
       validateRecordId V id = true ->
       submissions_getOne B (issued c) (GetOne "submissions" id) = Ok s ->
       sub_image s = Some name ->
       name <> "" ->
       images_getFile B (issued c ++ [GetOne "submissions" id])
         (GetImageFileFromRecord s name "submissions") = Throw e ->
       outcome_of (submissionsApi.approve B V id reviewedBy) c = Ok approved ->
       exists rq, rq ∈ requests_of (submissionsApi.approve B V id reviewedBy) c
                  /\ ((exists data, rq = MosquesCreate data None)
                      \/ (exists mosque_id data,
                            rq = MosquesUpdate mosque_id data None))).
Proof.
  intros H.
  destruct (H (backend_ok submission_edit_no_target (Throw "Failed to fetch"))
              sample_validation "s00000000000002" "a00000000000001"
              (fresh None) submission_edit_no_target
              submission_edit_no_target "photo.jpg" "Failed to fetch"
              eq_refl eq_refl eq_refl ltac:(discriminate) eq_refl eq_refl)
    as [rq [Hin Hrq]].
  assert (Hrun : requests_of
                   (submissionsApi.approve
                      (backend_ok submission_edit_no_target
                         (Throw "Failed to fetch"))
                      sample_validation "s00000000000002" "a00000000000001")
                   (fresh None)
                 = [GetOne "submissions" "s00000000000002";
                    GetImageFileFromRecord submission_edit_no_target
                      "photo.jpg" "submissions";
                    Update "submissions" "s00000000000002"
                      (submissionsApi.approved_body "a00000000000001"
                         "2025-01-01T00:00:00.000Z")])
    by (vm_compute; reflexivity).
  rewrite Hrun in Hin.
  repeat (apply elem_of_cons in Hin as [->|Hin];
          [destruct Hrq as [[? ?]|[? [? ?]]]; discriminate|]).
  inversion Hin.
Qed.

(** C5 (amended).  If [get] throws, [approve] throws the same error.
    Otherwise, let the fetched submission have a non-empty [image] and let
    the image fetch throw, or return a file that [validateImageFile] finds
    fault with.  Then the error is not thrown by [approve], and the
    create-or-update step runs without an image: the creation for a
    'new_mosque' submission, the update for an 'edit_mosque' one with a valid
    non-empty [mosque_id], no mosque request otherwise.  If that step
    succeeds, the update marking the submission approved is issued last and
    its answer, result or error, is the outcome of [approve]; if that step
    throws, [approve] throws the same error and issues nothing more. *)
Theorem C5_image_failure_tolerated (B : Backend) (V : Validation)
    (id reviewedBy : string) (c : Client) :
  validateRecordId V id = true ->
  let call := submissionsApi.approve B V id reviewedBy in
  let got := submissions_getOne B (issued c) (GetOne "submissions" id) in
  (forall e, got = Throw e -> outcome_of call c = Throw e)
  /\ (forall s name,
        got = Ok s ->
        sub_image s = Some name ->
        name <> "" ->
        let fetch := GetImageFileFromRecord s name "submissions" in
        let answer :=
          images_getFile B (issued c ++ [GetOne "submissions" id]) fetch in
        (exists e, answer = Throw e)
        \/ (exists file, answer = Ok (Some file)
                         /\ truthy (validateImageFile V file) = true) ->
        let data := submissionsApi.sanitizedData s in
        exists rqs,
          let before := GetOne "submissions" id :: fetch :: rqs in
          let last := Update "submissions" id
                        (submissionsApi.approved_body reviewedBy
                           (clock B (issued c ++ before))) in
          mosque_step V s data None rqs
          /\ ((submissionsApi.write_mosque B V s data None
                 (sent c [GetOne "submissions" id; fetch])
               = (Ok tt, sent c before)
               /\ requests_of call c = before ++ [last]
               /\ outcome_of call c
                  = submissions_update B (issued c ++ before) last)
              \/ (exists e,
                    submissionsApi.write_mosque B V s data None
                      (sent c [GetOne "submissions" id; fetch])
                    = (Throw e, sent c before)
                    /\ requests_of call c = before
                    /\ outcome_of call c = Throw e))).
Proof.
  intros Hid call got. subst call got. split.
  - intros e Hget. unfold outcome_of.
    now rewrite (approve_get_throws B V id reviewedBy c e Hid Hget).
  - intros s name Hget Himage Hname fetch answer Hfail data.
    subst fetch answer data.
    destruct (approve_trace B V id reviewedBy c s Hid Hget)
      as [img [rqs [Hfetch [Hstep Hrest]]]].
    assert (Himgs : image_requests s
                    = [GetImageFileFromRecord s name "submissions"]).
    { unfold image_requests. rewrite Himage.
      apply truthy_Some in Hname. now rewrite Hname. }
    rewrite Himgs in *.
    rewrite (fetch_image_failed B V s (sent c [GetOne "submissions" id])
               name Himage Hname Hfail) in Hfetch.
    injection Hfetch as <- _.
    exists rqs. cbn zeta. split; [exact Hstep|].
    unfold outcome_of, requests_of.
    destruct Hrest as [[Hw Happ]|[e [Hw Happ]]]; rewrite Happ;
      rewrite sent_sent in *; cbn [app] in *.
    + left. split; [exact Hw|]. rewrite requests_of_finish.
      split; reflexivity.
    + right. exists e. split; [exact Hw|]. cbn [fst snd sent issued].
      now rewrite drop_app_length.
Qed.

Lemma C5_image_failure_tolerated_witness :
  exists rqs,
    mosque_step sample_validation submission_edit
      (submissionsApi.sanitizedData submission_edit) None rqs.
Proof.
  pose (B := backend_ok submission_edit (Throw "Failed to fetch")).
  destruct (C5_image_failure_tolerated B sample_validation
              "s00000000000003" "a00000000000001" (fresh None) eq_refl)
    as [_ Himage].
  destruct (Himage submission_edit "photo.jpg" eq_refl eq_refl
              ltac:(discriminate)
              (or_introl (ex_intro _ "Failed to fetch" eq_refl)))
    as [rqs [Hstep _]].
  exists rqs. exact Hstep.
Defined.

(** * The permission script *)

Section ScriptFacts.
Variable B : Backend.
Variable env : gmap string string.
Variable typed_email typed_password : option string.

Let authenticate := script.authenticate B env typed_email typed_password.
Let fixAuditLogsPermissions := script.fixAuditLogsPermissions B.
Let main := script.main B env typed_email typed_password.
Let program := script.program B env typed_email typed_password.

(** [authenticate] only issues admin authentications.  It returns true after
    an accepted one, false after the typed credentials were refused, and
    is left waiting only if a prompt is not answered. *)
Lemma authenticate_run (c : Client) :
  exists result rqs,
    authenticate c = (Ok result, sent c rqs)
    /\ (forall rq, rq ∈ rqs ->
          exists email password, rq = AdminsAuthWithPassword email password)
    /\ (result = Some true ->
        exists earlier rq, admins_authWithPassword B earlier rq = Ok tt)
    /\ (result = Some false ->
        exists email password e,
          typed_email = Some email /\ typed_password = Some password /\
          admins_authWithPassword B (removelast (issued c ++ rqs))
            (AdminsAuthWithPassword email password) = Throw e)
    /\ (result = None -> typed_email = None \/ typed_password = None).
Proof.
  subst authenticate. unfold script.authenticate.
  set (envauth := AdminsAuthWithPassword _ _).
  assert (Hone : forall rq' rq : Request,
             (exists email password,
                 rq' = AdminsAuthWithPassword email password) ->
             rq ∈ [rq'] ->
             exists email password, rq = AdminsAuthWithPassword email password).
  { intros rq' rq H Hin. apply list_elem_of_singleton in Hin. now subst. }
  assert (Henv : exists email password,
             envauth = AdminsAuthWithPassword email password)
    by (subst envauth; eauto).
  assert (Htwo : forall email password rq,
             rq ∈ [envauth; AdminsAuthWithPassword email password] ->
             exists email' password',
               rq = AdminsAuthWithPassword email' password').
  { intros email password rq Hin.
    apply elem_of_cons in Hin as [->|Hin]; eauto. }
  assert (Hnone : forall rq : Request, rq ∈ [] ->
             exists email password, rq = AdminsAuthWithPassword email password)
    by (intros rq Hin; inversion Hin).
  unfold bind, try_catch, await, ret.
  destruct (truthy (env !! "POCKETBASE_ADMIN_EMAIL")
            && truthy (env !! "POCKETBASE_ADMIN_PASSWORD")).
  - destruct (admins_authWithPassword B (issued c) envauth)
      as [[]|e1] eqn:Henvauth.
    + exists (Some true), [envauth].
      repeat split; try discriminate; eauto; try (eapply Htwo; eassumption).
    + cbn [issued].
      destruct typed_email as [email|];
        [destruct typed_password as [password|]|].
      * cbn [issued authStore_model].
        destruct (admins_authWithPassword B (issued c ++ [envauth])
                    (AdminsAuthWithPassword email password))
          as [[]|e2] eqn:Htyped.
        -- exists (Some true), [envauth; AdminsAuthWithPassword email password].
           unfold sent. cbn [issued]. rewrite <- app_assoc.
           repeat split; try discriminate; eauto; try (eapply Htwo; eassumption).
        -- exists (Some false),
             [envauth; AdminsAuthWithPassword email password].
           unfold sent. cbn [issued]. rewrite <- app_assoc.
           repeat split; try discriminate; eauto; try (eapply Htwo; eassumption).
           intros _. exists email, password, e2.
           split; [reflexivity|]. split; [reflexivity|].
           change [envauth; AdminsAuthWithPassword email password]
             with ([envauth] ++ [AdminsAuthWithPassword email password]).
           rewrite app_assoc, removelast_last. exact Htyped.
      * exists None, [envauth].
        repeat split; try discriminate; eauto; try (eapply Htwo; eassumption).
      * exists None, [envauth].
        repeat split; try discriminate; eauto; try (eapply Htwo; eassumption).
  - destruct typed_email as [email|];
      [destruct typed_password as [password|]|].
    + destruct (admins_authWithPassword B (issued c)
                  (AdminsAuthWithPassword email password))
        as [[]|e2] eqn:Htyped.
      * exists (Some true), [AdminsAuthWithPassword email password].
        repeat split; try discriminate; eauto; try (eapply Htwo; eassumption).
      * exists (Some false), [AdminsAuthWithPassword email password].
        repeat split; try discriminate; eauto; try (eapply Htwo; eassumption).
        intros _. exists email, password, e2.
        split; [reflexivity|]. split; [reflexivity|].
        rewrite removelast_last. exact Htyped.
    + exists None, []. rewrite sent_nil.
      repeat split; try discriminate; eauto; try (eapply Htwo; eassumption).
    + exists None, []. rewrite sent_nil.
      repeat split; try discriminate; eauto; try (eapply Htwo; eassumption).
Qed.

(** [fixAuditLogsPermissions] never throws; it reads the collection and,
    if that succeeds, sends the one-field patch. *)
Lemma fixAuditLogsPermissions_run (c : Client) :
  let read := CollectionsGetOne "audit_logs" in
  (exists e,
      collections_getOne B (issued c) read = Throw e
      /\ fixAuditLogsPermissions c
         = (Ok (script.mkFixResult false (Some e)), sent c [read]))
  \/ (exists collection,
        let patch := CollectionsUpdate (coll_id collection)
                       script.rule_patch in
        collections_getOne B (issued c) read = Ok collection
        /\ ((collections_update B (issued c ++ [read]) patch = Ok tt
             /\ fixAuditLogsPermissions c
                = (Ok (script.mkFixResult true None),
                   sent c [read; patch]))
            \/ (exists e,
                  collections_update B (issued c ++ [read]) patch = Throw e
                  /\ fixAuditLogsPermissions c
                     = (Ok (script.mkFixResult false (Some e)),
                        sent c [read; patch])))).
Proof.
  cbn zeta. subst fixAuditLogsPermissions.
  unfold script.fixAuditLogsPermissions, try_catch, bind, await, ret.
  destruct (collections_getOne B (issued c) (CollectionsGetOne "audit_logs"))
    as [collection|e].
  - right. exists collection. split; [reflexivity|]. cbn [issued].
    unfold sent. cbn [authStore_model].
    rewrite <- (last_request_app (issued c)).
    destruct (collections_update B _ _) as [[]|e];
      [left | right; exists e]; split; reflexivity.
  - left. exists e. split; reflexivity.
Qed.

Lemma program_without_url (c : Client) :
  truthy (script.POCKETBASE_URL env) = false ->
  program c = (Ok (script.Exited 1), c).
Proof.
  intros Hurl. subst program. unfold script.program. now rewrite Hurl.
Qed.

(** With a URL, the script is [authenticate] followed, when it returned
    true, by [fixAuditLogsPermissions]. *)
Lemma program_with_url (c : Client) :
  truthy (script.POCKETBASE_URL env) = true ->
  program c
  = match authenticate c with
    | (Ok (Some true), c1) =>
        match fixAuditLogsPermissions c1 with
        | (Ok result, c2) =>
            (Ok (if script.success result then script.Returned
                 else script.Exited 1), c2)
        | (Throw _, c2) => (Ok (script.Exited 1), c2)
        end
    | (Ok (Some false), c1) => (Ok (script.Exited 1), c1)
    | (Ok None, c1) => (Ok script.Pending, c1)
    | (Throw _, c1) => (Ok (script.Exited 1), c1)
    end.
Proof.
  intros Hurl. subst program authenticate fixAuditLogsPermissions.
  unfold script.program. rewrite Hurl. cbn [negb].
  unfold try_catch, script.main, bind, ret.
  destruct (script.authenticate B env typed_email typed_password c)
    as [[[[]|]|e] c1]; cbn [negb]; try reflexivity.
  destruct (script.fixAuditLogsPermissions B c1) as [[result|e] c2];
    [|reflexivity].
  now destruct (script.success result).
Qed.

End ScriptFacts.

(** C6. Let the URL be set, let [authenticate] succeed and let the service
    return the [audit_logs] collection.  Then after authenticating the script
    reads the collection and sends one update of it, whose body has the single
    field [createRule], with the value [@request.auth.id != ""] (given below
    by its character codes): no key but [createRule] is in the body, so the
    list, view, update and delete rules are not part of the update.  In any
    run at all, a collection update sent by the script has that body. *)
Theorem C6_only_create_rule_is_patched (B : Backend) (env : gmap string string)
    (typed_email typed_password : option string) (c c1 : Client)
    (collection : Collection) :
  truthy (script.POCKETBASE_URL env) = true ->
  script.authenticate B env typed_email typed_password c
  = (Ok (Some true), c1) ->
  collections_getOne B (issued c1) (CollectionsGetOne "audit_logs")
  = Ok collection ->
  let program := script.program B env typed_email typed_password in
  issued (program c).2
  = issued c1 ++ [CollectionsGetOne "audit_logs";
                  CollectionsUpdate (coll_id collection) script.rule_patch]
  /\ script.rule_patch !! "createRule" = Some (VStr script.CREATE_RULE)
  /\ String.list_ascii_of_string script.CREATE_RULE
     = map Ascii.ascii_of_nat
         [64; 114; 101; 113; 117; 101; 115; 116; 46; 97; 117; 116; 104; 46;
          105; 100; 32; 33; 61; 32; 34; 34]
  /\ (forall k, k <> "createRule" -> script.rule_patch !! k = None)
  /\ (forall B' env' email' password' c' rq i body,
        rq ∈ requests_of (script.program B' env' email' password') c' ->
        rq = CollectionsUpdate i body ->
        body = script.rule_patch).
Proof.
  intros Hurl Hauth Hget program. subst program.
  split; [|split; [|split; [|split]]].
  - rewrite (program_with_url B env typed_email typed_password c Hurl).
    rewrite Hauth.
    destruct (fixAuditLogsPermissions_run B c1)
      as [[e [Hthrow _]]|[col [Hcol [[_ Hfix]|[e [_ Hfix]]]]]].
    + rewrite Hget in Hthrow. discriminate Hthrow.
    + rewrite Hget in Hcol. injection Hcol as <-. now rewrite Hfix.
    + rewrite Hget in Hcol. injection Hcol as <-. now rewrite Hfix.
  - apply lookup_singleton_eq.
  - reflexivity.
  - intros k Hk. apply lookup_singleton_ne. congruence.
  - intros B' env' email' password' c' rq i body Hin ->.
    unfold requests_of in Hin.
    destruct (truthy (script.POCKETBASE_URL env')) eqn:Hurl'.
    2:{ rewrite (program_without_url B' env' email' password' c' Hurl') in Hin.
        cbn [snd] in Hin. rewrite drop_all in Hin. inversion Hin. }
    rewrite (program_with_url B' env' email' password' c' Hurl') in Hin.
    destruct (authenticate_run B' env' email' password' c')
      as [result [rqs [Hrun [Hrqs _]]]].
    rewrite Hrun in Hin.
    assert (Hauth_only : CollectionsUpdate i body ∈ rqs -> False).
    { intros Hmem. destruct (Hrqs _ Hmem) as [? [? ?]]. discriminate. }
    destruct result as [[]|].
    2,3:(cbn [snd sent issued] in Hin; rewrite drop_app_length in Hin;
         now apply Hauth_only in Hin).
    destruct (fixAuditLogsPermissions_run B' (sent c' rqs))
      as [[e [_ Hfix]]|[col [_ [[_ Hfix]|[e [_ Hfix]]]]]];
      rewrite Hfix, sent_sent in Hin; cbn [snd sent issued] in Hin;
      try (destruct (script.success _));
      cbn [snd sent issued] in Hin;
      rewrite drop_app_length in Hin;
      apply elem_of_app in Hin as [Hin|Hin];
      try (now apply Hauth_only in Hin);
      repeat (apply elem_of_cons in Hin as [Hin|Hin];
              [first [discriminate Hin | now injection Hin]|]);
      inversion Hin.
Qed.

Lemma C6_only_create_rule_is_patched_witness :
  requests_of
    (script.program (backend_ok submission_new (Ok None)) sample_env
       None None)
    (fresh None)
  = [AdminsAuthWithPassword "admin@example.com" "correct horse";
     CollectionsGetOne "audit_logs";
     CollectionsUpdate "c00000000000001" script.rule_patch].
Proof.
  apply requests_of_app.
  destruct (C6_only_create_rule_is_patched
              (backend_ok submission_new (Ok None)) sample_env None None
              (fresh None)
              (mkClient
                 [AdminsAuthWithPassword "admin@example.com" "correct horse"]
                 None)
              sample_collection eq_refl eq_refl eq_refl) as [Hrun _].
  exact Hrun.
Defined.

(** As stated, C8 fails when a prompt is never answered: the credentials of
    the environment are sent and refused, the script falls back to the
    [Email: ] prompt, no answer comes, and the process ends without
    [process.exit], with status 0. *)
Lemma C8_unanswered_prompt_ends_with_status_0 :
  ~ (forall (B : Backend) (env : gmap string string)
       (typed_email typed_password : option string) (c : Client)
       (ending : script.Ending),
       truthy (script.POCKETBASE_URL env) = true ->
       (forall earlier rq,
           exists e, admins_authWithPassword B earlier rq = Throw e) ->
       (exists rq,
           rq ∈ requests_of
                  (script.program B env typed_email typed_password) c) ->
       outcome_of (script.program B env typed_email typed_password) c
       = Ok ending ->
       script.status ending <> 0%Z).
Proof.
  intros H.
  apply (H backend_refusing_admin sample_env None None (fresh None)
           script.Pending).
  - reflexivity.
  - intros earlier rq. exists "Failed to authenticate.". reflexivity.
  - exists (AdminsAuthWithPassword "admin@example.com" "correct horse").
    apply list_elem_of_here.
  - reflexivity.
  - reflexivity.
Qed.

(** C8 (amended).  Without a URL in the environment the script exits with
    status 1 and the client is untouched: nothing was requested.  With a
    URL: if [authenticate] returns false the script exits with status 1 right
    after it, and it does so when both prompts are answered and the service
    refuses every admin authentication; if, after a successful
    authentication, reading the collection or updating it fails, the script
    exits with status 1. *)
Theorem C8_failures_exit_nonzero (B : Backend) (env : gmap string string)
    (typed_email typed_password : option string) (c : Client) :
  let program := script.program B env typed_email typed_password in
  let authenticate := script.authenticate B env typed_email typed_password in
  let read := CollectionsGetOne "audit_logs" in
  (truthy (script.POCKETBASE_URL env) = false ->
   program c = (Ok (script.Exited 1), c))
  /\ (truthy (script.POCKETBASE_URL env) = true ->
      (forall c1, authenticate c = (Ok (Some false), c1) ->
         program c = (Ok (script.Exited 1), c1))
      /\ (forall email password,
            typed_email = Some email -> typed_password = Some password ->
            (forall earlier rq,
                exists e, admins_authWithPassword B earlier rq = Throw e) ->
            outcome_of program c = Ok (script.Exited 1))
      /\ (forall c1, authenticate c = (Ok (Some true), c1) ->
            (exists e, collections_getOne B (issued c1) read = Throw e)
            \/ (exists collection e,
                  collections_getOne B (issued c1) read = Ok collection
                  /\ collections_update B (issued c1 ++ [read])
                       (CollectionsUpdate (coll_id collection)
                          script.rule_patch) = Throw e) ->
            outcome_of program c = Ok (script.Exited 1)))
  /\ script.status (script.Exited 1) <> 0%Z.
Proof.
  cbn zeta. split; [|split; [|discriminate]].
  - apply program_without_url.
  - intros Hurl. split; [|split].
    + intros c1 Hauth.
      rewrite (program_with_url B env typed_email typed_password c Hurl).
      now rewrite Hauth.
    + intros email password Hemail Hpassword Hrefused. unfold outcome_of.
      rewrite (program_with_url B env typed_email typed_password c Hurl).
      destruct (authenticate_run B env typed_email typed_password c)
        as [result [rqs [Hrun [_ [Htrue [_ Hnone]]]]]].
      rewrite Hrun. destruct result as [[]|]; [|reflexivity|].
      * destruct (Htrue eq_refl) as [earlier [rq Hok]].
        destruct (Hrefused earlier rq) as [e He]. congruence.
      * destruct (Hnone eq_refl); congruence.
    + intros c1 Hauth Hfail. unfold outcome_of.
      rewrite (program_with_url B env typed_email typed_password c Hurl).
      rewrite Hauth.
      destruct (fixAuditLogsPermissions_run B c1)
        as [[e [_ Hfix]]|[col [Hcol [[Hupd Hfix]|[e [_ Hfix]]]]]];
        rewrite Hfix; try reflexivity.
      exfalso. destruct Hfail as [[e He]|[col' [e [Hcol' He]]]].
      * rewrite Hcol in He. discriminate He.
      * rewrite Hcol in Hcol'. injection Hcol' as <-.
        rewrite Hupd in He. discriminate He.
Qed.

(** * Further properties of the copying loop *)

Lemma sanitize_Some_iff (data : Obj) (k : string) (v : value) :
  submissionsApi.sanitize data !! k = Some v
  <-> k ∈ submissionsApi.ALLOWED_MOSQUE_FIELDS
      /\ data !! k = Some v /\ v <> VUndefined.
Proof.
  rewrite sanitize_lookup. unfold copied.
  destruct (bool_decide (k ∈ submissionsApi.ALLOWED_MOSQUE_FIELDS)) eqn:Hin.
  - apply bool_decide_eq_true in Hin.
    destruct (data !! k) as [w|].
    + destruct w; cbn [defined]; split;
        try (intros [= <-]; repeat split; [exact Hin | discriminate]);
        try (intros [_ [[= <-] _]]; reflexivity);
        try discriminate.
      intros [_ [[= <-] Hdef]]. now elim Hdef.
    + split; [discriminate | intros [_ [? _]]; discriminate].
  - apply bool_decide_eq_false in Hin.
    split; [discriminate | intros [? _]; contradiction].
Qed.

(** X1. The copying loop is a filter: [sanitize data] has a field exactly
    when [data] has it under an allow-listed name with a value other than
    [undefined], and then with that value. *)
Theorem X1_sanitize_is_a_filter (data : Obj) (k : string) (v : value) :
  submissionsApi.sanitize data !! k = Some v
  <-> k ∈ submissionsApi.ALLOWED_MOSQUE_FIELDS
      /\ data !! k = Some v /\ v <> VUndefined.
Proof.
  split.
  - intros Hs. now apply sanitize_Some_iff.
  - intros [Hin [Hk Hv]]. apply sanitize_Some_iff. auto.
Qed.

(** X2. Sanitizing twice is sanitizing once, and data that has only
    allow-listed fields, none of them [undefined], is left as it is. *)
Theorem X2_sanitize_idempotent (data : Obj) :
  submissionsApi.sanitize (submissionsApi.sanitize data)
  = submissionsApi.sanitize data
  /\ ((forall k v, data !! k = Some v ->
         k ∈ submissionsApi.ALLOWED_MOSQUE_FIELDS /\ v <> VUndefined) ->
      submissionsApi.sanitize data = data).
Proof.
  assert (Hfix : forall d : Obj,
             (forall k v, d !! k = Some v ->
                k ∈ submissionsApi.ALLOWED_MOSQUE_FIELDS /\ v <> VUndefined) ->
             submissionsApi.sanitize d = d).
  { intros d Hd. apply map_eq. intros k.
    destruct (d !! k) as [v|] eqn:Hk.
    - apply sanitize_Some_iff. destruct (Hd k v Hk). auto.
    - destruct (submissionsApi.sanitize d !! k) as [v|] eqn:Hs; [|reflexivity].
      apply sanitize_Some_iff in Hs as [_ [Hs _]]. congruence. }
  split; [|apply Hfix].
  apply Hfix. intros k v Hs.
  apply sanitize_Some_iff in Hs as [? [_ ?]]. auto.
Qed.

(** X3. At most nine fields come out of the copying loop, and the data that
    [approve] hands to the mosque API has at most ten. *)
Theorem X3_sanitized_field_count (s : Submission) :
  size (submissionsApi.sanitize (sub_data s)) <= 9
  /\ size (submissionsApi.sanitizedData s) <= 10.
Proof.
  assert (Hdom : dom (submissionsApi.sanitize (sub_data s))
                 ⊆ (list_to_set submissionsApi.ALLOWED_MOSQUE_FIELDS
                    : gset string)).
  { intros k Hk. apply elem_of_dom in Hk as [v Hv].
    apply sanitize_Some_iff in Hv as [Hin _].
    now apply elem_of_list_to_set. }
  assert (Hnine : size (submissionsApi.sanitize (sub_data s)) <= 9).
  { rewrite <- size_dom. apply subseteq_size in Hdom.
    etransitivity; [exact Hdom|]. now vm_compute. }
  split; [exact Hnine|].
  unfold submissionsApi.sanitizedData.
  destruct (String.eqb (sub_type s) "new_mosque"); [|lia].
  assert (Hdom' : dom (<["created_by" := VStr (sub_submitted_by s)]>
                         (<["status" := VStr "approved"]>
                            (submissionsApi.sanitize (sub_data s))))
                  ⊆ (list_to_set
                       ("created_by" :: submissionsApi.ALLOWED_MOSQUE_FIELDS)
                     : gset string)).
  { rewrite !dom_insert. intros k Hk.
    apply elem_of_list_to_set.
    apply elem_of_union in Hk as [Hk|Hk].
    - apply elem_of_singleton in Hk as ->. apply list_elem_of_here.
    - apply list_elem_of_further.
      apply elem_of_union in Hk as [Hk|Hk].
      + apply elem_of_singleton in Hk as ->. now apply listed.
      + apply Hdom in Hk. now apply elem_of_list_to_set in Hk. }
  rewrite <- size_dom. apply subseteq_size in Hdom'.
  etransitivity; [exact Hdom'|]. now vm_compute.
Qed.

(** * Further properties of [approve] and [reject] *)

(** Every run of [approve]: nothing requested for a rejected id, the fetch
    alone when it fails, and otherwise the fetch, the image step, the
    create-or-update step and, unless that step threw, the final update.  The
    auth store is never touched. *)
Lemma approve_shape (B : Backend) (V : Validation) (id reviewedBy : string)
    (c : Client) :
  let call := submissionsApi.approve B V id reviewedBy in
  authStore_model (call c).2 = authStore_model c
  /\ (requests_of call c = []
      \/ ((exists e, submissions_getOne B (issued c)
                       (GetOne "submissions" id) = Throw e)
          /\ requests_of call c = [GetOne "submissions" id])
      \/ (exists s img rqs tail,
            submissions_getOne B (issued c) (GetOne "submissions" id) = Ok s
            /\ (submissionsApi.fetch_image B V s
                  (sent c [GetOne "submissions" id])).1 = Ok img
            /\ mosque_step V s (submissionsApi.sanitizedData s) img rqs
            /\ requests_of call c
               = GetOne "submissions" id :: image_requests s ++ rqs ++ tail
            /\ (tail = []
                \/ exists t,
                     tail = [Update "submissions" id
                               (submissionsApi.approved_body reviewedBy t)]))).
Proof.
  cbn zeta. destruct (validateRecordId V id) eqn:Hid.
  2:{ split; [now rewrite (approve_invalid_id B V id reviewedBy c Hid)|].
      left. apply requests_of_nil.
      now rewrite (approve_invalid_id B V id reviewedBy c Hid). }
  destruct (submissions_getOne B (issued c) (GetOne "submissions" id))
    as [s|e] eqn:Hget.
  2:{ split.
      - now rewrite (approve_get_throws B V id reviewedBy c e Hid Hget).
      - right. left. split; [eauto|]. unfold requests_of.
        rewrite (approve_get_throws B V id reviewedBy c e Hid Hget).
        cbn [snd sent issued]. apply drop_app_length. }
  destruct (approve_trace B V id reviewedBy c s Hid Hget)
    as [img [rqs [Hfetch [Hstep Hrest]]]].
  split.
  - destruct Hrest as [[_ ->]|[e [_ ->]]]; reflexivity.
  - right. right. exists s, img, rqs.
    destruct Hrest as [[_ Happ]|[e [_ Happ]]].
    + eexists. split; [reflexivity|]. split; [now rewrite Hfetch|].
      split; [exact Hstep|]. unfold requests_of. rewrite Happ.
      rewrite sent_sent, requests_of_finish. cbn [app].
      rewrite <- app_assoc. split; [reflexivity|]. right. eauto.
    + exists []. split; [reflexivity|]. split; [now rewrite Hfetch|].
      split; [exact Hstep|]. unfold requests_of. rewrite Happ.
      rewrite sent_sent. cbn [snd sent issued]. rewrite drop_app_length.
      rewrite app_nil_r. auto.
Qed.

(** A request of the shape above is the fetch, the image fetch, a request of
    the create-or-update step, or the final update. *)
Lemma approve_request_cases (V : Validation) (id reviewedBy : string)
    (s : Submission) (img : option File) (rqs tail : list Request)
    (rq : Request) :
  mosque_step V s (submissionsApi.sanitizedData s) img rqs ->
  (tail = [] \/ exists t,
      tail = [Update "submissions" id
                (submissionsApi.approved_body reviewedBy t)]) ->
  rq ∈ GetOne "submissions" id :: image_requests s ++ rqs ++ tail ->
  rq = GetOne "submissions" id
  \/ (exists name, rq = GetImageFileFromRecord s name "submissions")
  \/ (sub_type s = "new_mosque"
      /\ rq = MosquesCreate (submissionsApi.sanitizedData s) img)
  \/ (sub_type s = "edit_mosque"
      /\ exists mosque_id,
           sub_mosque_id s = Some mosque_id /\ mosque_id <> "" /\
           validateRecordId V mosque_id = true /\
           rq = MosquesUpdate mosque_id (submissionsApi.sanitizedData s) img)
  \/ (exists t, rq = Update "submissions" id
                       (submissionsApi.approved_body reviewedBy t)).
Proof.
  intros Hstep Htail Hin.
  apply elem_of_cons in Hin as [Hin|Hin]; [now left|].
  apply elem_of_app in Hin as [Hin|Hin].
  { apply elem_of_image_requests in Hin as [name [_ [_ ->]]].
    right. left. eauto. }
  apply elem_of_app in Hin as [Hin|Hin].
  2:{ destruct Htail as [->|[t ->]]; [inversion Hin|].
      apply list_elem_of_singleton in Hin. do 4 right. eauto. }
  destruct Hstep as [[Hnew ->]|[[Hedit [m [Hm [Hne [Hv ->]]]]]
                    |[[_ [m [_ [_ [_ ->]]]]]|[_ [_ ->]]]]];
    try (inversion Hin; fail); apply list_elem_of_singleton in Hin.
  - right. right. left. auto.
  - do 3 right. left. split; [exact Hedit|]. exists m. auto.
Qed.

(** X4. Whenever [approve] issues a mosque update, the fetched submission is
    an 'edit_mosque' one, the updated mosque is its non-empty, validated
    [mosque_id], and the data sent is the filtered [submission.data]: exactly
    its allow-listed, defined fields, the [status] among them as submitted,
    and no [created_by]. *)
Theorem X4_edit_mosque_allow_list (B : Backend) (V : Validation)
    (id reviewedBy : string) (c : Client) (mosque_id : string) (data : Obj)
    (img : option File) :
  MosquesUpdate mosque_id data img
    ∈ requests_of (submissionsApi.approve B V id reviewedBy) c ->
  exists s,
    submissions_getOne B (issued c) (GetOne "submissions" id) = Ok s
    /\ sub_type s = "edit_mosque"
    /\ sub_mosque_id s = Some mosque_id
    /\ mosque_id <> ""
    /\ validateRecordId V mosque_id = true
    /\ (forall k v, data !! k = Some v
                    <-> k ∈ submissionsApi.ALLOWED_MOSQUE_FIELDS
                        /\ sub_data s !! k = Some v /\ v <> VUndefined)
    /\ data !! "created_by" = None.
Proof.
  intros Hin.
  destruct (approve_shape B V id reviewedBy c)
    as [_ [Hnil|[[_ Hone]|[s [img0 [rqs [tail [Hget [_ [Hstep [Hrqs Htail]]]]]]]]]]].
  { rewrite Hnil in Hin. inversion Hin. }
  { rewrite Hone in Hin. apply list_elem_of_singleton in Hin. discriminate. }
  rewrite Hrqs in Hin.
  destruct (approve_request_cases V id reviewedBy s img0 rqs tail _
              Hstep Htail Hin)
    as [H|[[? H]|[[_ H]|[[Hedit [m [Hm [Hne [Hv H]]]]]|[? H]]]]];
    try discriminate H.
  injection H as -> Hdata ->.
  assert (Hsan : data = submissionsApi.sanitize (sub_data s)).
  { rewrite Hdata. unfold submissionsApi.sanitizedData.
    now rewrite Hedit. }
  exists s. do 5 (split; [assumption|]). split.
  - intros k v. rewrite Hsan. apply sanitize_Some_iff.
  - rewrite Hsan, sanitize_lookup.
    now rewrite (bool_decide_eq_false_2
                   ("created_by" ∈ submissionsApi.ALLOWED_MOSQUE_FIELDS))
      by now apply not_listed.
Qed.

Lemma X4_edit_mosque_allow_list_witness :
  exists s,
    s = submission_edit
    /\ submissionsApi.sanitizedData submission_edit !! "created_by" = None.
Proof.
  destruct (X4_edit_mosque_allow_list
              (backend_ok submission_edit (Ok None)) sample_validation
              "s00000000000003" "a00000000000001" (fresh None)
              "m00000000000001"
              (submissionsApi.sanitizedData submission_edit) None)
    as [s [Hget [_ [_ [_ [_ [_ Hnone]]]]]]].
  - apply list_elem_of_further, list_elem_of_further, list_elem_of_here.
  - injection Hget as <-. exists submission_edit. auto.
Defined.

(** X5. A file reaches the mosque API only after validation: if a request
    of [approve] creates or updates a mosque with an image, that image is the
    file the image fetch returned for the submission's own [image] field, and
    [validateImageFile] found no error in it. *)
Theorem X5_only_validated_images (B : Backend) (V : Validation)
    (id reviewedBy : string) (c : Client) (rq : Request) (data : Obj)
    (file : File) :
  rq ∈ requests_of (submissionsApi.approve B V id reviewedBy) c ->
  rq = MosquesCreate data (Some file)
  \/ (exists mosque_id, rq = MosquesUpdate mosque_id data (Some file)) ->
  exists s name,
    submissions_getOne B (issued c) (GetOne "submissions" id) = Ok s
    /\ sub_image s = Some name
    /\ images_getFile B (issued c ++ [GetOne "submissions" id])
         (GetImageFileFromRecord s name "submissions") = Ok (Some file)
    /\ truthy (validateImageFile V file) = false.
Proof.
  intros Hin Hrq.
  destruct (approve_shape B V id reviewedBy c)
    as [_ [Hnil|[[_ Hone]|[s [img [rqs [tail [Hget [Hfetch [Hstep [Hrqs Htail]]]]]]]]]]].
  { rewrite Hnil in Hin. inversion Hin. }
  { rewrite Hone in Hin. apply list_elem_of_singleton in Hin. subst rq.
    destruct Hrq as [?|[? ?]]; discriminate. }
  rewrite Hrqs in Hin.
  assert (Himg : img = Some file).
  { destruct (approve_request_cases V id reviewedBy s img rqs tail _
                Hstep Htail Hin)
      as [H|[[? H]|[[_ H]|[[_ [m [_ [_ [_ H]]]]]|[? H]]]]];
      subst rq; destruct Hrq as [Hrq|[? Hrq]]; try discriminate Hrq;
      now injection Hrq. }
  subst img.
  destruct (submissionsApi.fetch_image B V s
              (sent c [GetOne "submissions" id])) as [o c'] eqn:Hrun.
  cbn [fst] in Hfetch. subst o.
  destruct (fetch_image_validated B V s _ _ file Hrun)
    as [name [Hname [Hanswer Hvalid]]].
  exists s, name. auto.
Qed.

Lemma X5_only_validated_images_witness :
  truthy (validateImageFile sample_validation sample_file) = false.
Proof.
  destruct (X5_only_validated_images
              (backend_ok submission_edit (Ok (Some sample_file)))
              sample_validation "s00000000000003" "a00000000000001"
              (fresh None)
              (MosquesUpdate "m00000000000001"
                 (submissionsApi.sanitizedData submission_edit)
                 (Some sample_file))
              (submissionsApi.sanitizedData submission_edit) sample_file)
    as [s [name [_ [_ [_ Hvalid]]]]].
  - apply list_elem_of_further, list_elem_of_further, list_elem_of_here.
  - right. exists "m00000000000001". reflexivity.
  - exact Hvalid.
Defined.

(** X6. One call of [approve] issues at most four requests, among them at
    most one creation or update of a mosque and at most one update of a
    record. *)
Theorem X6_approve_request_bounds (B : Backend) (V : Validation)
    (id reviewedBy : string) (c : Client) :
  let rqs := requests_of (submissionsApi.approve B V id reviewedBy) c in
  length rqs <= 4
  /\ length (List.filter is_mosque_write rqs) <= 1
  /\ length (List.filter is_update rqs) <= 1.
Proof.
  cbn zeta.
  destruct (approve_shape B V id reviewedBy c)
    as [_ [->|[[_ ->]|[s [img [rqs [tail [_ [_ [Hstep [-> Htail]]]]]]]]]]];
    [cbn; lia | cbn; lia |].
  assert (Himage : image_requests s = []
                   \/ exists name,
                        image_requests s
                        = [GetImageFileFromRecord s name "submissions"]).
  { unfold image_requests. destruct (sub_image s) as [name|]; [|now left].
    destruct (truthy (Some name)); [right; eauto | now left]. }
  destruct Himage as [->|[name ->]];
    destruct Htail as [->|[t ->]];
    destruct Hstep as [[_ ->]|[[_ [m [_ [_ [_ ->]]]]]
                      |[[_ [m [_ [_ [_ ->]]]]]|[_ [_ ->]]]]];
    cbn; lia.
Qed.

(** X7. The submission wrappers never change the auth store: after [list],
    [listMySubmissions], [get], [update], [approve] or [reject], whatever
    the outcome, the session is the one the call started with. *)
Theorem X7_submissions_keep_session (B : Backend) (V : Validation)
    (c : Client) (status : option string) (id reviewedBy reason : string)
    (data : Obj) :
  authStore_model (submissionsApi.list B V status c).2 = authStore_model c
  /\ authStore_model (submissionsApi.listMySubmissions B V status c).2
     = authStore_model c
  /\ authStore_model (submissionsApi.get B V id c).2 = authStore_model c
  /\ authStore_model (submissionsApi.update B id data c).2 = authStore_model c
  /\ authStore_model (submissionsApi.approve B V id reviewedBy c).2
     = authStore_model c
  /\ authStore_model (submissionsApi.reject B id reviewedBy reason c).2
     = authStore_model c.
Proof.
  split; [|split; [|split; [|split; [|split]]]].
  - run_api. destruct status as [s|]; [|reflexivity].
    destruct (truthy (Some s)); [|reflexivity].
    now destruct (validateSubmissionStatus V s).
  - run_api. destruct (authStore_model c) as [m|] eqn:Hm; [|exact Hm].
    destruct status as [s|]; [|exact Hm].
    destruct (truthy (Some s)); [|exact Hm].
    destruct (validateSubmissionStatus V s); exact Hm.
  - run_api. now destruct (validateRecordId V id).
  - reflexivity.
  - apply (approve_shape B V id reviewedBy c).
  - reflexivity.
Qed.

(** X8. Reviewing only writes review fields.  An update issued by [approve]
    is an update of the submission [id] itself, in [submissions], with status
    'approved', the reviewer, and no key besides [status], [reviewed_by] and
    [reviewed_at]; [reject] issues exactly one request, the update of
    submission [id] with status 'rejected', the reviewer and the reason, and
    no key besides these and [reviewed_at].  Neither can change the type,
    the data or the submitter of a submission. *)
Theorem X8_review_writes_review_fields_only (B : Backend) (V : Validation)
    (id reviewedBy reason : string) (c : Client) :
  (forall collection i body,
      Update collection i body
        ∈ requests_of (submissionsApi.approve B V id reviewedBy) c ->
      collection = "submissions" /\ i = id
      /\ body !! "status" = Some (VStr "approved")
      /\ body !! "reviewed_by" = Some (VStr reviewedBy)
      /\ (forall k, is_Some (body !! k) ->
            k ∈ ["status"; "reviewed_by"; "reviewed_at"]))
  /\ (exists body,
        requests_of (submissionsApi.reject B id reviewedBy reason) c
        = [Update "submissions" id body]
        /\ body !! "status" = Some (VStr "rejected")
        /\ body !! "reviewed_by" = Some (VStr reviewedBy)
        /\ body !! "rejection_reason" = Some (VStr reason)
        /\ body !! "reviewed_at" = Some (VStr (clock B (issued c)))
        /\ (forall k, is_Some (body !! k) ->
              k ∈ ["status"; "reviewed_by"; "reviewed_at";
                   "rejection_reason"])).
Proof.
  split.
  - intros collection i body Hin.
    destruct (approve_shape B V id reviewedBy c)
      as [_ [Hnil|[[_ Hone]|[s [img [rqs [tail [_ [_ [Hstep [Hrqs Htail]]]]]]]]]]].
    { rewrite Hnil in Hin. inversion Hin. }
    { rewrite Hone in Hin. apply list_elem_of_singleton in Hin.
      discriminate. }
    rewrite Hrqs in Hin.
    destruct (approve_request_cases V id reviewedBy s img rqs tail _
                Hstep Htail Hin)
      as [H|[[? H]|[[_ H]|[[_ [m [_ [_ [_ H]]]]]|[t H]]]]];
      try discriminate H.
    injection H as -> -> ->. unfold submissionsApi.approved_body.
    split; [reflexivity|]. split; [reflexivity|].
    split; [apply lookup_insert_eq|].
    split; [rewrite lookup_insert_ne by discriminate; apply lookup_insert_eq|].
    intros k [v Hk].
    destruct (decide (k = "status")) as [->|H1];
      [apply list_elem_of_here|].
    rewrite lookup_insert_ne in Hk by congruence.
    destruct (decide (k = "reviewed_by")) as [->|H2];
      [apply list_elem_of_further, list_elem_of_here|].
    rewrite lookup_insert_ne in Hk by congruence.
    destruct (decide (k = "reviewed_at")) as [->|H3];
      [do 2 apply list_elem_of_further; apply list_elem_of_here|].
    rewrite lookup_insert_ne in Hk by congruence.
    rewrite lookup_empty in Hk. discriminate Hk.
  - eexists. split.
    { apply requests_of_app. reflexivity. }
    unfold submissionsApi.rejected_body.
    split; [apply lookup_insert_eq|].
    split; [rewrite lookup_insert_ne by discriminate; apply lookup_insert_eq|].
    split; [do 3 (rewrite lookup_insert_ne by discriminate);
            apply lookup_insert_eq|].
    split; [do 2 (rewrite lookup_insert_ne by discriminate);
            apply lookup_insert_eq|].
    intros k [v Hk].
    destruct (decide (k = "status")) as [->|H1];
      [apply list_elem_of_here|].
    rewrite lookup_insert_ne in Hk by congruence.
    destruct (decide (k = "reviewed_by")) as [->|H2];
      [apply list_elem_of_further, list_elem_of_here|].
    rewrite lookup_insert_ne in Hk by congruence.
    destruct (decide (k = "reviewed_at")) as [->|H3];
      [do 2 apply list_elem_of_further; apply list_elem_of_here|].
    rewrite lookup_insert_ne in Hk by congruence.
    destruct (decide (k = "rejection_reason")) as [->|H4];
      [do 3 apply list_elem_of_further; apply list_elem_of_here|].
    rewrite lookup_insert_ne in Hk by congruence.
    rewrite lookup_empty in Hk. discriminate Hk.
Qed.

(** * Further properties of [usersApi] *)

(** X9. The operations on the current user need a session and address its
    record only.  Without a session [updateProfile] and [updatePassword]
    throw 'User not authenticated' and leave the client as it was.  With a
    session, [updateProfile] issues exactly one request, the update of the
    record of the session's user with the data as given, and its outcome is
    the backend's answer. *)
Theorem X9_current_user_operations (B : Backend) (c : Client) (data : Obj)
    (oldPassword newPassword passwordConfirm : string) :
  (authStore_model c = None ->
   usersApi.updateProfile B data c = (Throw "User not authenticated", c)
   /\ usersApi.updatePassword B oldPassword newPassword passwordConfirm c
      = (Throw "User not authenticated", c))
  /\ (forall model, authStore_model c = Some model ->
        requests_of (usersApi.updateProfile B data) c
        = [Update "users" (model_id model) data]
        /\ outcome_of (usersApi.updateProfile B data) c
           = users_update B (issued c) (Update "users" (model_id model) data)).
Proof.
  split.
  - intros Hm. unfold usersApi.updateProfile. run_api. now rewrite Hm.
  - intros model Hm.
    unfold outcome_of, requests_of, usersApi.updateProfile,
      usersApi.await_update.
    run_api. rewrite Hm. cbn [fst snd issued].
    now rewrite drop_app_length.
Qed.

(** * Further properties of the permission script *)

(** X11. [authenticate] tries the credentials of the environment first, and
    only when both are set and non-empty.  If the service accepts them, that
    is the only request: no prompt is read and no typed credentials are
    sent.  If it refuses them, or if one of them is missing or empty, the
    prompts follow: when both are answered, the typed credentials are the
    last request and decide the result; when one is not answered, nothing
    more is sent and [authenticate] is left waiting. *)
Theorem X11_authenticate_attempts (B : Backend) (env : gmap string string)
    (typed_email typed_password : option string) (c : Client) :
  let authenticate := script.authenticate B env typed_email typed_password in
  let prompted (before : list Request) :=
    match typed_email, typed_password with
    | Some email, Some password =>
        let typed := AdminsAuthWithPassword email password in
        requests_of authenticate c = before ++ [typed]
        /\ (outcome_of authenticate c = Ok (Some true)
            <-> admins_authWithPassword B (issued c ++ before) typed = Ok tt)
        /\ (outcome_of authenticate c = Ok (Some false)
            <-> exists e,
                  admins_authWithPassword B (issued c ++ before) typed
                  = Throw e)
    | _, _ => authenticate c = (Ok None, sent c before)
    end in
  (forall email password,
      env !! "POCKETBASE_ADMIN_EMAIL" = Some email ->
      env !! "POCKETBASE_ADMIN_PASSWORD" = Some password ->
      email <> "" -> password <> "" ->
      let first := AdminsAuthWithPassword email password in
      (admins_authWithPassword B (issued c) first = Ok tt ->
       authenticate c = (Ok (Some true), sent c [first]))
      /\ (forall e, admins_authWithPassword B (issued c) first = Throw e ->
            prompted [first]))
  /\ (truthy (env !! "POCKETBASE_ADMIN_EMAIL") = false
      \/ truthy (env !! "POCKETBASE_ADMIN_PASSWORD") = false ->
      prompted []).
Proof.
  cbn zeta. split.
  - intros email password Hemail Hpassword He Hp.
    apply truthy_Some in He. apply truthy_Some in Hp.
    unfold outcome_of, requests_of, script.authenticate.
    rewrite Hemail, Hpassword, He, Hp. cbn [andb].
    change (default "" (Some email)) with email.
    change (default "" (Some password)) with password.
    unfold bind, try_catch, await, ret. split.
    + intros Hok. now rewrite Hok.
    + intros e Hrefused. rewrite Hrefused. cbn [fst snd issued].
      destruct typed_email as [email'|];
        [destruct typed_password as [password'|]|]; try reflexivity.
      cbn [issued authStore_model].
      destruct (admins_authWithPassword B (issued c ++ _) _) as [[]|e2];
        cbn [fst snd issued]; rewrite last_request_app, drop_app_length;
        (split; [reflexivity|]); split; split; auto; try discriminate.
      * intros [e' He']. discriminate He'.
      * intros _. eauto.
  - intros Hmissing.
    assert (Hskip : truthy (env !! "POCKETBASE_ADMIN_EMAIL")
                    && truthy (env !! "POCKETBASE_ADMIN_PASSWORD") = false).
    { destruct Hmissing as [-> | ->]; [reflexivity|].
      now apply andb_false_r. }
    unfold outcome_of, requests_of, script.authenticate.
    rewrite Hskip. unfold bind, try_catch, await, ret.
    destruct typed_email as [email'|];
      [destruct typed_password as [password'|]|];
      try (now rewrite sent_nil).
    rewrite app_nil_r.
    destruct (admins_authWithPassword B (issued c) _) as [[]|e2];
      cbn [fst snd issued]; rewrite drop_app_length;
      (split; [reflexivity|]); split; split; auto; try discriminate.
    + intros [e' He']. discriminate He'.
    + intros _. eauto.
Qed.

(** X12. How the script ends.  It ends with [main] returning, without
    [process.exit], exactly when the URL is set, [authenticate] returned
    true, the collection was read and its update was accepted.  It is left
    waiting, and ends with status 0, exactly when the URL is set and
    [authenticate] is left waiting at a prompt.  Every other run exits with
    status 1. *)
Theorem X12_script_ending (B : Backend) (env : gmap string string)
    (typed_email typed_password : option string) (c : Client) :
  let program := script.program B env typed_email typed_password in
  let authenticate := script.authenticate B env typed_email typed_password in
  let read := CollectionsGetOne "audit_logs" in
  (outcome_of program c = Ok script.Returned
   <-> truthy (script.POCKETBASE_URL env) = true
       /\ exists c1 collection,
            authenticate c = (Ok (Some true), c1)
            /\ collections_getOne B (issued c1) read = Ok collection
            /\ collections_update B (issued c1 ++ [read])
                 (CollectionsUpdate (coll_id collection) script.rule_patch)
               = Ok tt)
  /\ (outcome_of program c = Ok script.Pending
      <-> truthy (script.POCKETBASE_URL env) = true
          /\ outcome_of authenticate c = Ok None)
  /\ (outcome_of program c = Ok script.Returned
      \/ outcome_of program c = Ok script.Pending
      \/ outcome_of program c = Ok (script.Exited 1)).
Proof.
  cbn zeta. unfold outcome_of.
  destruct (truthy (script.POCKETBASE_URL env)) eqn:Hurl.
  2:{ rewrite (program_without_url B env typed_email typed_password c Hurl).
      split; [|split; [|now right; right]].
      - split; [discriminate | intros [? _]; discriminate].
      - split; [discriminate | intros [? _]; discriminate]. }
  rewrite (program_with_url B env typed_email typed_password c Hurl).
  destruct (authenticate_run B env typed_email typed_password c)
    as [result [rqs [Hrun _]]].
  rewrite Hrun. destruct result as [[]|].
  2:{ split; [|split; [|now right; right]].
      - split; [discriminate|].
        intros [_ [c1 [col [H _]]]]. discriminate H.
      - split; [discriminate | intros [_ H]; discriminate H]. }
  2:{ split; [|split; [|now right; left]].
      - split; [discriminate|].
        intros [_ [c1 [col [H _]]]]. discriminate H.
      - split; auto. }
  destruct (fixAuditLogsPermissions_run B (sent c rqs))
    as [[e [Hget Hfix]]|[col [Hget [[Hupd Hfix]|[e [Hupd Hfix]]]]]];
    rewrite Hfix; cbn [fst script.success].
  - split; [|split; [|now right; right]].
    + split; [discriminate|].
      intros [_ [c1 [col [[= <-] [H _]]]]]. congruence.
    + split; [discriminate | intros [_ H]; discriminate H].
  - split; [|split; [|now left]].
    + split; [|reflexivity].
      intros _. split; [reflexivity|]. exists (sent c rqs), col. auto.
    + split; [discriminate | intros [_ H]; discriminate H].
  - split; [|split; [|now right; right]].
    + split; [discriminate|].
      intros [_ [c1 [col' [[= <-] [H1 H2]]]]].
      rewrite Hget in H1. injection H1 as <-. congruence.
    + split; [discriminate | intros [_ H]; discriminate H].
Qed.

(** X13. The script touches a collection only after an accepted admin
    authentication.  Every request of a run is an admin authentication, or
    else [authenticate] returned true and some admin authentication was
    accepted, and the request is the read of [audit_logs] or the update of
    the collection that this read returned. *)
Theorem X13_no_collection_request_before_auth (B : Backend)
    (env : gmap string string) (typed_email typed_password : option string)
    (c : Client) (rq : Request) :
  rq ∈ requests_of (script.program B env typed_email typed_password) c ->
  (exists email password, rq = AdminsAuthWithPassword email password)
  \/ (exists c1,
        script.authenticate B env typed_email typed_password c
        = (Ok (Some true), c1)
        /\ (exists earlier auth,
              admins_authWithPassword B earlier auth = Ok tt)
        /\ (rq = CollectionsGetOne "audit_logs"
            \/ exists collection,
                 collections_getOne B (issued c1)
                   (CollectionsGetOne "audit_logs") = Ok collection
                 /\ rq = CollectionsUpdate (coll_id collection)
                           script.rule_patch)).
Proof.
  unfold requests_of. intros Hin.
  destruct (truthy (script.POCKETBASE_URL env)) eqn:Hurl.
  2:{ rewrite (program_without_url B env typed_email typed_password c Hurl)
        in Hin.
      cbn [snd] in Hin. rewrite drop_all in Hin. inversion Hin. }
  rewrite (program_with_url B env typed_email typed_password c Hurl) in Hin.
  destruct (authenticate_run B env typed_email typed_password c)
    as [result [rqs [Hrun [Hrqs [Htrue _]]]]].
  rewrite Hrun in Hin. destruct result as [[]|].
  2,3:(cbn [snd sent issued] in Hin; rewrite drop_app_length in Hin;
       left; now apply Hrqs).
  assert (Hsplit : rq ∈ rqs
                   \/ rq ∈ requests_of (script.fixAuditLogsPermissions B)
                             (sent c rqs)).
  { unfold requests_of.
    destruct (fixAuditLogsPermissions_run B (sent c rqs))
      as [[e [_ Hfix]]|[col [_ [[_ Hfix]|[e [_ Hfix]]]]]];
      rewrite Hfix in *; cbn [fst snd script.success sent issued] in *;
      rewrite <- app_assoc, drop_app_length in Hin;
      rewrite drop_app_length;
      apply elem_of_app in Hin; exact Hin. }
  destruct Hsplit as [Hauth|Hfixrq]; [left; now apply Hrqs|].
  right. exists (sent c rqs). split; [exact Hrun|].
  split; [now apply Htrue|].
  unfold requests_of in Hfixrq.
  destruct (fixAuditLogsPermissions_run B (sent c rqs))
    as [[e [_ Hfix]]|[col [Hget [[_ Hfix]|[e [_ Hfix]]]]]];
    rewrite Hfix in Hfixrq; cbn [snd sent issued] in Hfixrq;
    rewrite drop_app_length in Hfixrq;
    repeat (apply elem_of_cons in Hfixrq as [->|Hfixrq]; [eauto|]);
    inversion Hfixrq.
Qed.

Lemma X13_no_collection_request_before_auth_witness :
  exists c1,
    script.authenticate (backend_ok submission_new (Ok None)) sample_env
      None None (fresh None) = (Ok (Some true), c1).
Proof.
  destruct (X13_no_collection_request_before_auth
              (backend_ok submission_new (Ok None)) sample_env None None
              (fresh None) (CollectionsGetOne "audit_logs"))
    as [[email [password Hrq]]|[c1 [Hauth _]]].
  - apply list_elem_of_further, list_elem_of_here.
  - discriminate Hrq.
  - exists c1. exact Hauth.
Defined.

(** * Properties of [submissionsApi.create] *)

Section CreateFacts.
Variable V : Validation.
Variable JSON_stringify : value -> Outcome string.
Variable answer : CreateBody -> Outcome Submission.


Lemma form_field_Throw (key : string) (value : field) (e : string) :
  createSubmission.form_field JSON_stringify key value = Throw e ->
  key <> "data"
  /\ ((value = FDate None /\ e = "Invalid time value")
      \/ exists v, value = FJson v /\ JSON_stringify v = Throw e).
Proof.
  unfold createSubmission.form_field.
  destruct (String.eqb key "data") eqn:Hkey; [discriminate|].
  apply String.eqb_neq in Hkey.
  destruct value as [|[iso|]| | |v|]; intros H; try discriminate H.
  - injection H as <-. auto.
  - destruct (JSON_stringify v) as [text|e'] eqn:Hv; [discriminate|].
    injection H as <-. split; [exact Hkey|]. right. eauto.
Qed.


(** The field loop throws only on an invalid date or when [JSON.stringify]
    throws on an object or array among the properties. *)
Lemma form_fields_Throw (entries : list (string * field)) (e : string) :
  createSubmission.form_fields JSON_stringify entries = Throw e ->
  exists key,
    key <> "data"
    /\ ((e = "Invalid time value" /\ (key, FDate None) ∈ entries)
        \/ exists v, (key, FJson v) ∈ entries /\ JSON_stringify v = Throw e).
Proof.
  induction entries as [|[key value] rest IH]; [discriminate|].
  cbn [createSubmission.form_fields].
  destruct (createSubmission.form_field JSON_stringify key value)
    as [appended|e1] eqn:Hfield.
  - destruct (createSubmission.form_fields JSON_stringify rest)
      as [more|e2]; [discriminate|].
    intros [= <-]. destruct (IH eq_refl) as [k [Hk Hcase]].
    exists k. split; [exact Hk|].
    destruct Hcase as [[-> Hin]|[v [Hin Hv]]].
    + left. split; [reflexivity | now apply list_elem_of_further].
    + right. exists v. split; [now apply list_elem_of_further | exact Hv].
  - intros [= <-].
    destruct (form_field_Throw key value e1 Hfield)
      as [Hk [[-> ->]|[v [-> Hv]]]]; exists key; (split; [exact Hk|]).
    + left. split; [reflexivity | apply list_elem_of_here].
    + right. exists v. split; [apply list_elem_of_here | exact Hv].
Qed.

End CreateFacts.


(** X14. An image that fails validation stops [create] before anything is
    sent: it throws the validation message. *)
Theorem X14_create_rejects_invalid_image (V : Validation)
    (JSON_stringify : value -> Outcome string)
    (answer : CreateBody -> Outcome Submission)
    (submissionData : list (string * field)) (imageFile : File)
    (validationError : string) :
  validateImageFile V imageFile = Some validationError ->
  validationError <> "" ->
  createSubmission.create V JSON_stringify answer submissionData
    (Some imageFile)
  = (Throw validationError, []).
Proof.
  intros Herror Hne. unfold createSubmission.create. rewrite Herror.
  apply truthy_Some in Hne. now rewrite Hne.
Qed.

Lemma X14_create_rejects_invalid_image_witness :
  createSubmission.create sample_validation (fun _ => Ok "{}")
    (fun _ => Ok submission_new) [("type", FString "new_mosque")]
    (Some (mkFile "huge.png" "image/png" 9000000))
  = (Throw "Image size must be less than 5MB", []).
Proof.
  apply (X14_create_rejects_invalid_image sample_validation
           (fun _ => Ok "{}")
           (fun _ => Ok submission_new) [("type", FString "new_mosque")]
           (mkFile "huge.png" "image/png" 9000000)
           "Image size must be less than 5MB").
  - reflexivity.
  - discriminate.
Defined.



(** X16. [create] sends at most one body.  It sends none only when it was
    given an image file and the file failed validation, or a date among the
    properties is invalid, or [JSON.stringify] threw on an object or array
    among the properties or on the data without its image; it then throws
    that error.  Otherwise it sends exactly one body and its outcome is the
    backend's answer to it.  Without an image file the body is the argument
    itself, unchanged, and neither validation nor [JSON.stringify] takes
    place. *)
Theorem X16_create_sends_at_most_once (V : Validation)
    (JSON_stringify : value -> Outcome string)
    (answer : CreateBody -> Outcome Submission)
    (submissionData : list (string * field)) (imageFile : option File) :
  let call := createSubmission.create V JSON_stringify answer submissionData
                imageFile in
  (call.2 = []
   /\ exists e file,
        call.1 = Throw e /\ imageFile = Some file
        /\ ((validateImageFile V file = Some e /\ e <> "")
            \/ (e = "Invalid time value"
                /\ exists key, key <> "data"
                               /\ (key, FDate None) ∈ submissionData)
            \/ (exists key v, key <> "data"
                              /\ (key, FJson v) ∈ submissionData
                              /\ JSON_stringify v = Throw e)
            \/ JSON_stringify
                 (VObj (createSubmission.dataWithoutImage submissionData))
               = Throw e))
  \/ (exists body,
        call.2 = [body] /\ call.1 = answer body
        /\ (imageFile = None -> body = ObjectBody submissionData)).
Proof.
  cbn zeta. unfold createSubmission.create.
  destruct imageFile as [file|].
  2:{ right. eexists. split; [reflexivity|]. split; reflexivity. }
  assert (Hupload :
            let call := createSubmission.upload JSON_stringify answer
                          submissionData file in
            (call.2 = []
             /\ exists e,
                  call.1 = Throw e
                  /\ ((e = "Invalid time value"
                       /\ exists key, key <> "data"
                                      /\ (key, FDate None) ∈ submissionData)
                      \/ (exists key v, key <> "data"
                                        /\ (key, FJson v) ∈ submissionData
                                        /\ JSON_stringify v = Throw e)
                      \/ JSON_stringify
                           (VObj (createSubmission.dataWithoutImage
                                    submissionData))
                         = Throw e))
            \/ (exists body, call.2 = [body] /\ call.1 = answer body)).
  { cbn zeta. unfold createSubmission.upload.
    destruct (createSubmission.form_fields JSON_stringify submissionData)
      as [formData|e] eqn:Hform.
    - destruct (JSON_stringify
                  (VObj (createSubmission.dataWithoutImage submissionData)))
        as [json|e] eqn:Hjson.
      + right. eexists. split; reflexivity.
      + left. split; [reflexivity|]. exists e. split; [reflexivity|]. auto.
    - left. split; [reflexivity|]. exists e. split; [reflexivity|].
      destruct (form_fields_Throw JSON_stringify submissionData e Hform)
        as [key [Hkey [[-> Hin]|[v [Hin Hv]]]]].
      + left. split; [reflexivity|]. eauto.
      + right. left. eauto. }
  cbn zeta in Hupload.
  assert (Hcases :
            (createSubmission.upload JSON_stringify answer submissionData
               file).2 = []
            /\ (exists e file0,
                  (createSubmission.upload JSON_stringify answer
                     submissionData file).1 = Throw e
                  /\ Some file = Some file0
                  /\ ((validateImageFile V file0 = Some e /\ e <> "")
                      \/ (e = "Invalid time value"
                          /\ exists key, key <> "data"
                               /\ (key, FDate None) ∈ submissionData)
                      \/ (exists key v, key <> "data"
                             /\ (key, FJson v) ∈ submissionData
                             /\ JSON_stringify v = Throw e)
                      \/ JSON_stringify
                           (VObj (createSubmission.dataWithoutImage
                                    submissionData))
                         = Throw e))
            \/ (exists body,
                  (createSubmission.upload JSON_stringify answer
                     submissionData file).2 = [body]
                  /\ (createSubmission.upload JSON_stringify answer
                        submissionData file).1 = answer body
                  /\ (Some file = None -> body = ObjectBody submissionData))).
  { destruct Hupload as [[Hnil [e [Hthrow Hwhy]]]|[body [Hone Hans]]].
    - left. split; [exact Hnil|]. exists e, file. auto.
    - right. exists body. split; [exact Hone|]. split; [exact Hans|].
      discriminate. }
  destruct (validateImageFile V file) as [validationError|] eqn:Herror;
    [|exact Hcases].
  destruct (truthy (Some validationError)) eqn:Htruthy; [|exact Hcases].
  left. split; [reflexivity|]. exists validationError, file.
  split; [reflexivity|]. split; [reflexivity|]. left.
  split; [exact Herror | now apply truthy_Some].
Qed.

(** X17. An empty [VITE_POCKETBASE_URL] counts as unset: the script then
    takes [POCKETBASE_URL].  The script issues no request at all exactly
    when both are unset or empty, or when the admin credentials of the
    environment are incomplete and a prompt is not answered; in every other
    run it attempts at least one admin authentication. *)
Theorem X17_url_fallback (B : Backend) (env : gmap string string)
    (typed_email typed_password : option string) (c : Client) :
  let vite := env !! "VITE_POCKETBASE_URL" in
  let plain := env !! "POCKETBASE_URL" in
  let env_credentials :=
    truthy (env !! "POCKETBASE_ADMIN_EMAIL")
    && truthy (env !! "POCKETBASE_ADMIN_PASSWORD") in
  (truthy vite = true -> script.POCKETBASE_URL env = vite)
  /\ (truthy vite = false -> script.POCKETBASE_URL env = plain)
  /\ (requests_of (script.program B env typed_email typed_password) c = []
      <-> (truthy vite = false /\ truthy plain = false)
          \/ (env_credentials = false
              /\ (typed_email = None \/ typed_password = None))).
Proof.
  cbn zeta. unfold script.POCKETBASE_URL at 1 2, js_or.
  split; [now intros ->|]. split; [now intros ->|].
  assert (Hurl : truthy (script.POCKETBASE_URL env)
                 = truthy (env !! "VITE_POCKETBASE_URL")
                   || truthy (env !! "POCKETBASE_URL")).
  { unfold script.POCKETBASE_URL, js_or.
    destruct (truthy (env !! "VITE_POCKETBASE_URL")) eqn:Hvite;
      [exact Hvite | reflexivity]. }
  assert (Hauth :
            (truthy (env !! "POCKETBASE_ADMIN_EMAIL")
             && truthy (env !! "POCKETBASE_ADMIN_PASSWORD") = false
             /\ (typed_email = None \/ typed_password = None)
             /\ script.authenticate B env typed_email typed_password c
                = (Ok None, c))
            \/ (~ (truthy (env !! "POCKETBASE_ADMIN_EMAIL")
                   && truthy (env !! "POCKETBASE_ADMIN_PASSWORD") = false
                   /\ (typed_email = None \/ typed_password = None))
                /\ exists result first rest,
                     script.authenticate B env typed_email typed_password c
                     = (Ok result, sent c (first :: rest)))).
  { unfold script.authenticate, bind, try_catch, await, ret.
    destruct (truthy (env !! "POCKETBASE_ADMIN_EMAIL")
              && truthy (env !! "POCKETBASE_ADMIN_PASSWORD")).
    - right. split; [intros [H _]; discriminate H|].
      destruct (admins_authWithPassword B (issued c) _) as [[]|e1].
      + do 3 eexists. reflexivity.
      + destruct typed_email as [email|];
          [destruct typed_password as [password|]|];
          try (do 3 eexists; reflexivity).
        cbn [issued authStore_model].
        destruct (admins_authWithPassword B (issued c ++ _) _)
          as [[]|e2]; do 3 eexists; unfold sent; cbn [issued];
          rewrite <- app_assoc; reflexivity.
    - destruct typed_email as [email|];
        [destruct typed_password as [password|]|].
      + right. split; [intros [_ [H|H]]; discriminate H|].
        destruct (admins_authWithPassword B (issued c) _) as [[]|e2];
          do 3 eexists; reflexivity.
      + left. auto.
      + left. auto. }
  split.
  - intros Hnone.
    destruct (truthy (script.POCKETBASE_URL env)) eqn:Hset.
    + right. unfold requests_of in Hnone.
      rewrite (program_with_url B env typed_email typed_password c Hset)
        in Hnone.
      destruct Hauth as [[Hincomplete [Hanswer _]]
                        |[_ [result [first [rest Hrun]]]]]; [auto|].
      exfalso. rewrite Hrun in Hnone. destruct result as [[]|].
      * destruct (fixAuditLogsPermissions_run B (sent c (first :: rest)))
          as [[e [_ Hfix]]|[col [_ [[_ Hfix]|[e [_ Hfix]]]]]];
          rewrite Hfix, sent_sent in Hnone;
          cbn [snd sent issued] in Hnone;
          rewrite drop_app_length in Hnone; discriminate Hnone.
      * cbn [snd sent issued] in Hnone.
        rewrite drop_app_length in Hnone. discriminate Hnone.
      * cbn [snd sent issued] in Hnone.
        rewrite drop_app_length in Hnone. discriminate Hnone.
    + left. symmetry in Hurl. now apply orb_false_iff in Hurl.
  - intros Hcases. apply requests_of_nil.
    destruct (truthy (script.POCKETBASE_URL env)) eqn:Hset.
    + rewrite (program_with_url B env typed_email typed_password c Hset).
      destruct Hcases as [[Hvite Hplain]|Hwaiting].
      { rewrite Hvite, Hplain in Hurl. discriminate Hurl. }
      destruct Hauth as [[_ [_ Hrun]]|[Hnot _]]; [|contradiction].
      now rewrite Hrun.
    + now rewrite (program_without_url B env typed_email typed_password c
                     Hset).
Qed.
